(** * streamlit-profiler: type inference, schema reconciliation and row diff

    A shallow embedding of the data-profiling core of the repository:

    - [Home.py]: the numeric normalizer [to_numeric_resilient], the
      categorical detector [looks_categorical] and the automatic type
      conversion loop that runs over the session's table;
    - [pages/05_Incremental Profiling.py]: [dtype_family], the second
      [to_numeric_resilient], [coerce_to_schema], [friendly_dtype],
      [normalize_for_rowdiff] and the key-free row comparison.

    Conventions of the embedding.

    - A Python [str] is a Rocq [string] read as a sequence of code points
      below 256 (one [ascii] per code point), so the pound sign is the single
      character of code 163.
    - A [float64] is kept as the exact value of the decimal it was read
      from, or an infinity; NaN is the missing value [None].  pandas holds
      the nearest double (and an all-integer column as [int64]); the two
      agree on what a column is typed as, on whole values and on rounding
      for the plain decimals of [Float.plain], and the statements about
      number values are made for those.  Thresholds such as [>= 0.9] are
      compared exactly.
    - pandas' library calls whose grammar is not part of the repository
      ([pd.to_datetime], [strftime], Python's [str()] of a non-text value)
      are fields of a record [PandasLib]; [pd.to_datetime] reads a column
      with the one format it guesses from the first cell that holds a
      value, as pandas 2 does.  [pd.to_numeric] on text is written out as
      the decimal grammar of pandas' tokenizer.
    - A [DataFrame] is a Python object: tables live in a heap and the session
      state holds references to them. *)

From Stdlib Require Import ZArith QArith Qround Qabs Lqa String Ascii List.
From Stdlib Require Qcanon.
From stdpp Require Import base list strings gmap sorting pretty.

Local Open Scope string_scope.
Local Open Scope Z_scope.

(** ** Python strings *)

Module PyStr.

Definition chars : string → list ascii := list_ascii_of_string.
Definition str : list ascii → string := string_of_list_ascii.

Definition code (c : ascii) : Z := Z.of_N (N_of_ascii c).
Definition chr (n : Z) : ascii := ascii_of_N (Z.to_N n).

Definition between (lo hi : Z) (c : ascii) : bool :=
  (lo <=? code c) && (code c <=? hi).

(** [str.isspace] on one code point below 256. *)
Definition isspace (c : ascii) : bool :=
  between 9 13 c || between 28 32 c || (code c =? 133) || (code c =? 160).

(** C [isspace] in the "C" locale, used by pandas' tokenizer. *)
Definition isspace_ascii (c : ascii) : bool :=
  between 9 13 c || (code c =? 32).

Definition isdigit (c : ascii) : bool := between 48 57 c.

Fixpoint lstrip_by (p : ascii → bool) (l : list ascii) : list ascii :=
  match l with
  | c :: l' => if p c then lstrip_by p l' else l
  | [] => []
  end.

Definition rstrip_by (p : ascii → bool) (l : list ascii) : list ascii :=
  rev (lstrip_by p (rev l)).

(** [s.strip()] *)
Definition strip (s : string) : string :=
  str (rstrip_by isspace (lstrip_by isspace (chars s))).

(** [s.rstrip(c)] for a one-character argument. *)
Definition rstrip_char (c : ascii) (s : string) : string :=
  str (rstrip_by (λ x, bool_decide (x = c)) (chars s)).

(** [s.lower()] on code points below 256: A-Z and the accented capitals
    192-222 (except the multiplication sign 215) move up by 32. *)
Definition lower_char (c : ascii) : ascii :=
  if between 65 90 c || (between 192 222 c && negb (code c =? 215))
  then chr (code c + 32) else c.

Definition lower (s : string) : string := str (map lower_char (chars s)).

Fixpoint is_prefix (p l : list ascii) : bool :=
  match p, l with
  | [], _ => true
  | a :: p', b :: l' => bool_decide (a = b) && is_prefix p' l'
  | _ :: _, [] => false
  end.

(** [s.endswith(suffix)] *)
Definition endswith (s suffix : string) : bool :=
  is_prefix (rev (chars suffix)) (rev (chars s)).

Fixpoint contains_chars (sub l : list ascii) : bool :=
  is_prefix sub l ||
  match l with
  | [] => false
  | _ :: l' => contains_chars sub l'
  end.

(** [sub in s] *)
Definition contains (sub s : string) : bool := contains_chars (chars sub) (chars s).

(** Deleting every character of a class: [re.sub("[...]", "", s)] and
    [s.replace(c, "")] for a one-character [c]. *)
Definition remove (p : ascii → bool) (s : string) : string :=
  str (filter (λ c, p c = false) (chars s)).

Definition len (s : string) : nat := length (chars s).

End PyStr.

(** ** Numbers

    A float64 value that is not NaN.  Finite values are kept as reduced
    fractions, so that equal numbers are equal terms. *)

Inductive float64 : Type :=
| Finite (q : Q)
| PInf
| NInf.

Module Float.

Definition of_Z (z : Z) : float64 := Finite (inject_Z z).

(** [x / 100.0] *)
Definition div100 (x : float64) : float64 :=
  match x with
  | Finite q => Finite (Qred (Qmult q (1 # 100)))
  | PInf => PInf
  | NInf => NInf
  end.

(** [x % 1 == 0]; the remainder of an infinity is NaN, which equals
    nothing. *)
Definition is_whole (x : float64) : bool :=
  match x with
  | Finite q => (Qden (Qred q) =? 1)%positive
  | _ => false
  end.

(** Rounding to the nearest integer, ties to the even one, as numpy's
    [round] does. *)
Definition round_half_even (q : Q) : Z :=
  let f := Qfloor q in
  let r := Qminus q (inject_Z f) in
  match Qcompare r (1 # 2) with
  | Lt => f
  | Gt => f + 1
  | Eq => if Z.even f then f else f + 1
  end.

(** [x.round(0)] *)
Definition round0 (x : float64) : float64 :=
  match x with
  | Finite q => of_Z (round_half_even q)
  | _ => x
  end.

Definition int64_min : Z := - 2 ^ 63.
Definition int64_max : Z := 2 ^ 63 - 1.

(** Casting one float to the nullable integer type [Int64]: pandas casts
    and compares the result with the input, and raises [TypeError] when
    they differ; so the cast succeeds exactly on whole values in range.
    [None] is the raised exception. *)
Definition to_int64 (x : float64) : option Z :=
  match x with
  | Finite q =>
      let z := Qfloor q in
      if is_whole x && (int64_min <=? z) && (z <=? int64_max) then Some z else None
  | _ => None
  end.

Definition pad6 (r : Z) : string :=
  match pretty (1000000 + r) with
  | String _ s => s
  | EmptyString => EmptyString
  end.

(** The plain decimals: at most fifteen digits, at most fifteen of them
    after the point.  A float64 tells any two of them apart, every parser
    reads them to the same double, and that double is whole, or rounds to
    an integer, exactly as the decimal does. *)
Definition plain (x : float64) : bool :=
  match x with
  | Finite q =>
      Qle_bool (Qabs q) (inject_Z (10 ^ 15 - 1))
      && existsb (λ k, let s := Qred (Qmult q (inject_Z (10 ^ Z.of_nat k))) in
                       (Qden s =? 1)%positive && (Z.abs (Qnum s) <? 10 ^ 15))
                 (seq 0 16)
  | _ => false
  end.

(** [f"{x:.6f}"], of the exact value.  Python formats the double; the two
    can part when the exact value lies midway between two texts of six
    decimals. *)
Definition fixed6 (x : float64) : string :=
  match x with
  | Finite q =>
      let n := round_half_even (Qmult (Qabs q) (inject_Z 1000000)) in
      (if Qlt_le_dec q 0 then "-" else "") +:+
      pretty (n / 1000000) +:+ "." +:+ pad6 (n mod 1000000)
  | PInf => "inf"
  | NInf => "-inf"
  end.

(** ** [pd.to_numeric] on one text element

    The grammar of pandas' tokenizer: blanks, a sign, digits with an
    optional decimal point, an optional exponent, blanks; or one of the
    words for infinity.  Anything else is NaN under [errors="coerce"].
    The value read is the exact value of the decimal: pandas holds the
    nearest double, and has NaN for a decimal past the range of a double
    and 0.0 for one too close to zero.  On the plain decimals the two do
    not part. *)

Definition digit_val (c : ascii) : option Z :=
  if PyStr.isdigit c then Some (PyStr.code c - 48) else None.

Fixpoint read_digits (l : list ascii) (acc : Z) (n : nat) : Z * nat * list ascii :=
  match l with
  | c :: l' =>
      match digit_val c with
      | Some d => read_digits l' (10 * acc + d) (S n)
      | None => (acc, n, l)
      end
  | [] => (acc, n, [])
  end.

Definition read_sign (l : list ascii) : bool * list ascii :=
  match l with
  | "-"%char :: l' => (true, l')
  | "+"%char :: l' => (false, l')
  | _ => (false, l)
  end.

Definition read_exponent (l : list ascii) : Z * list ascii :=
  match l with
  | c :: l' =>
      if bool_decide (c = "e"%char) || bool_decide (c = "E"%char) then
        let '(neg, l1) := read_sign l' in
        let '(e, n, l2) := read_digits l1 0 0%nat in
        match n with
        | O => (0, l)
        | S _ => (if neg then - e else e, l2)
        end
      else (0, l)
  | [] => (0, [])
  end.

Definition pow10 (q : Q) (e : Z) : Q :=
  if 0 <=? e then Qmult q (inject_Z (10 ^ e))
  else Qmult q (1 # Z.to_pos (10 ^ (- e))).

Definition parse_decimal (s : string) : option float64 :=
  let l0 := PyStr.lstrip_by PyStr.isspace_ascii (PyStr.chars s) in
  let '(neg, l1) := read_sign l0 in
  let '(ip, n1, l2) := read_digits l1 0 0%nat in
  let '(m, n2, l3) :=
    match l2 with
    | "."%char :: l' => read_digits l' ip 0%nat
    | _ => (ip, 0%nat, l2)
    end in
  match (n1 + n2)%nat with
  | O => None
  | S _ =>
      let '(e, l4) := read_exponent l3 in
      match PyStr.lstrip_by PyStr.isspace_ascii l4 with
      | [] =>
          let q := pow10 (inject_Z (if neg then - m else m)) (e - Z.of_nat n2) in
          Some (Finite (Qred q))
      | _ :: _ => None
      end
  end.

Definition parse_special (s : string) : option float64 :=
  let t := PyStr.lower s in
  if bool_decide (t = "inf") || bool_decide (t = "+inf")
     || bool_decide (t = "infinity") || bool_decide (t = "+infinity") then Some PInf
  else if bool_decide (t = "-inf") || bool_decide (t = "-infinity") then Some NInf
  else None.

Definition to_numeric_str (s : string) : option float64 :=
  match parse_decimal s with
  | Some x => Some x
  | None => parse_special s
  end.

End Float.

(** ** Tables

    A non-missing element of a column.  Timestamps are nanoseconds since the
    epoch, the representation of [datetime64[ns]]. *)

Inductive value : Type :=
| VStr (s : string)
| VInt (z : Z)
| VFloat (x : float64)
| VBool (b : bool)
| VTime (t : Z).

(** A cell; [None] is the missing value (NaN, NaT, <NA>). *)
Definition cell : Type := option value.

Inductive dtype : Type :=
| dt_object | dt_int64 | dt_float64 | dt_bool
| dt_Int64 | dt_boolean | dt_datetime64 | dt_string | dt_category.

(** [str(dtype)] *)
Definition dtype_str (d : dtype) : string :=
  match d with
  | dt_object => "object"
  | dt_int64 => "int64"
  | dt_float64 => "float64"
  | dt_bool => "bool"
  | dt_Int64 => "Int64"
  | dt_boolean => "boolean"
  | dt_datetime64 => "datetime64[ns]"
  | dt_string => "string"
  | dt_category => "category"
  end.

Record Series : Type := mkSeries { dtype_of : dtype; cells : list cell }.

(** A table: its number of rows (the length of the index) and its columns in
    order. *)
Record DataFrame : Type := mkDataFrame { nrows : nat; columns : list (string * Series) }.

Global Instance Q_eq_dec : EqDecision Q.
Proof. solve_decision. Defined.
Global Instance float64_eq_dec : EqDecision float64.
Proof. solve_decision. Defined.
Global Instance value_eq_dec : EqDecision value.
Proof. solve_decision. Defined.
Global Instance dtype_eq_dec : EqDecision dtype.
Proof. solve_decision. Defined.
Global Instance Series_eq_dec : EqDecision Series.
Proof. solve_decision. Defined.

Definition column_names (df : DataFrame) : list string := (columns df).*1.

Fixpoint lookup_column (c : string) (cols : list (string * Series)) : option Series :=
  match cols with
  | [] => None
  | (c', s) :: rest => if decide (c' = c) then Some s else lookup_column c rest
  end.

(** [df[c]] *)
Definition get_column (df : DataFrame) (c : string) : option Series :=
  lookup_column c (columns df).

Fixpoint replace_column (c : string) (s : Series) (cols : list (string * Series))
  : list (string * Series) :=
  match cols with
  | [] => [(c, s)]
  | (c', s') :: rest =>
      if decide (c' = c) then (c, s) :: rest else (c', s') :: replace_column c s rest
  end.

(** [df[c] = s]: an existing column is overwritten where it stands, a new
    name is appended. *)
Definition set_column (df : DataFrame) (c : string) (s : Series) : DataFrame :=
  mkDataFrame (nrows df) (replace_column c s (columns df)).

(** ** Library calls taken as given

    The behaviour of the pandas and Python calls whose grammar is outside
    the repository. *)
Record PandasLib : Type := mkPandasLib {
  (** [pd.to_datetime(series, errors="coerce")] on one non-missing element
      of a column: [to_datetime first v] is the date read in [v] under the
      format that pandas guesses from [first], the first cell of the column
      that holds a value; [None] is NaT. *)
  to_datetime : option value → value → option Z;
  (** [t.strftime("%Y-%m-%d %H:%M:%S")] *)
  strftime : Z → string;
  (** [str(v)] of an element that is not text. *)
  py_str : value → string;
}.

Module Pandas.

(** [str(v)] *)
Definition str_of (pd : PandasLib) (v : value) : string :=
  match v with
  | VStr s => s
  | _ => py_str pd v
  end.

(** One element of [series.astype(str)]: a missing float prints as
    ["nan"]. *)
Definition astype_str (pd : PandasLib) (c : cell) : string :=
  match c with
  | None => "nan"
  | Some v => str_of pd v
  end.

(** One element of [series.astype("string")]: missing stays missing. *)
Definition astype_string (pd : PandasLib) (c : cell) : option string :=
  str_of pd <$> c.

(** The cell from which [pd.to_datetime] guesses the format of a column:
    the first that is not missing and is not an empty text, one of the
    texts pandas takes for NaT, or one of the words for the present
    time. *)
Definition nat_strings : list string := ["NaT"; "nat"; "NAT"; "nan"; "NaN"; "NAN"].

Definition holds_value (c : cell) : bool :=
  match c with
  | None => false
  | Some (VStr s) =>
      negb (bool_decide (s = "") || bool_decide (s ∈ nat_strings)
            || bool_decide (s ∈ ["now"; "today"]))
  | Some _ => true
  end.

Definition first_non_null (l : list cell) : option value :=
  mjoin (head (List.filter holds_value l)).

(** One element of [pd.to_datetime(series, errors="coerce")] in a column
    whose format is guessed from [first]; a missing cell is NaT. *)
Definition to_datetime_cell (pd : PandasLib) (first : option value) (c : cell) : option Z :=
  c ≫= to_datetime pd first.

(** [pd.to_datetime(series, errors="coerce")] *)
Definition to_datetime_series (pd : PandasLib) (l : list cell) : list (option Z) :=
  map (to_datetime_cell pd (first_non_null l)) l.

(** One element of [pd.to_numeric(series, errors="coerce")]: text is
    parsed, numbers and booleans are kept, a timestamp is its integer
    view. *)
Definition to_numeric (c : cell) : option float64 :=
  match c with
  | None => None
  | Some (VStr s) => Float.to_numeric_str s
  | Some (VInt z) => Some (Float.of_Z z)
  | Some (VFloat x) => Some x
  | Some (VBool b) => Some (Float.of_Z (if b then 1 else 0))
  | Some (VTime t) => Some (Float.of_Z t)
  end.

(** One element of [pd.to_numeric(series, errors="coerce")] for a series of
    the given type: a [datetime64] column is viewed as 64-bit integers, and
    the missing date is the least of them. *)
Definition to_numeric_of (d : dtype) (c : cell) : option float64 :=
  if decide (d = dt_datetime64) then
    match c with
    | None => Some (Float.of_Z Float.int64_min)
    | Some _ => to_numeric c
    end
  else to_numeric c.

(** [series.replace({"": pd.NA, "nan": pd.NA, "None": pd.NA})] on one
    element of a text series. *)
Definition replace_blank (s : string) : option string :=
  if bool_decide (s = "") || bool_decide (s = "nan") || bool_decide (s = "None")
  then None else Some s.

(** [series.mean() >= num/den] for a boolean series with [hits] true cells
    out of [total]; the mean of an empty series is NaN and compares
    false. *)
Definition mean_ge (hits total : nat) (num den : Z) : bool :=
  negb (Nat.eqb total 0) && (num * Z.of_nat total <=? den * Z.of_nat hits).

Definition mean_gt (hits total : nat) (num den : Z) : bool :=
  negb (Nat.eqb total 0) && (num * Z.of_nat total <? den * Z.of_nat hits).

Definition count {A} (p : A → bool) (l : list A) : nat := length (List.filter p l).

(** [o.notna()] on one element. *)
Definition notna {A} (o : option A) : bool :=
  match o with
  | Some _ => true
  | None => false
  end.

(** [series[mask]] for a boolean mask of the same length. *)
Fixpoint mask_select {A} (mask : list bool) (l : list A) : list A :=
  match mask, l with
  | b :: mask', x :: l' => if b then x :: mask_select mask' l' else mask_select mask' l'
  | _, _ => []
  end.

End Pandas.

(** The lexicon of both files' boolean maps. *)
Definition BOOL_MAP (s : string) : option bool :=
  if bool_decide (s = "true") then Some true
  else if bool_decide (s = "false") then Some false
  else if bool_decide (s = "yes") then Some true
  else if bool_decide (s = "no") then Some false
  else if bool_decide (s = "y") then Some true
  else if bool_decide (s = "n") then Some false
  else if bool_decide (s = "1") then Some true
  else if bool_decide (s = "0") then Some false
  else None.

(** What a statement that can raise leaves behind. *)
Inductive outcome (A : Type) : Type :=
| Returned (a : A)
| Raised.
Arguments Returned {A} a.
Arguments Raised {A}.

(** Casting a float series to [Int64]: missing stays missing, and one value
    that cannot be cast raises for the whole series. *)
Definition astype_Int64 (num : list (option float64)) : option (list cell) :=
  mapM (λ o, match o with
             | None => Some None
             | Some x => (λ z, Some (VInt z)) <$> Float.to_int64 x
             end) num.

(** What the program holds: the tables, each behind a reference, and
    Streamlit's [st.session_state], whose entries refer to tables. *)
Record world : Type := mkWorld {
  heap : gmap positive DataFrame;
  session_state : gmap string positive;
}.

(** [df[c]] and [df[c] = s] for a reference [df]: the assignment changes the
    table that every holder of the reference sees. *)
Definition getitem (h : gmap positive DataFrame) (df : positive) (c : string)
  : option Series :=
  h !! df ≫= λ t, get_column t c.

Definition setitem (h : gmap positive DataFrame) (df : positive) (c : string) (s : Series)
  : gmap positive DataFrame :=
  alter (λ t, set_column t c s) df h.

(** [df.copy()]: a new object with the value of the old one; [None] for a
    reference that holds no table. *)
Definition copy (h : gmap positive DataFrame) (df : positive)
  : option (gmap positive DataFrame * positive) :=
  t ← h !! df;
  Some (<[fresh (dom h) := t]> h, fresh (dom h)).

(** The table a session key refers to, if any. *)
Definition session_table (w : world) (key : string) : option DataFrame :=
  session_state w !! key ≫= λ l, heap w !! l.

(** ** Home.py *)

Module Home.
Section WithPandas.
Context (pd : PandasLib).

(** The class of the first substitution as the file spells it: the code
    points 194 and 163 (the pound sign), the dollar sign and the comma. *)
Definition currency_class (c : ascii) : bool :=
  (PyStr.code c =? 194) || (PyStr.code c =? 163)
  || bool_decide (c = "$"%char) || bool_decide (c = ","%char).

Definition percent (c : ascii) : bool := bool_decide (c = "%"%char).

(** One element of [to_numeric_resilient(series, pct_to_unit)]. *)
Definition to_numeric_resilient_cell (pct_to_unit : bool) (c : cell) : option float64 :=
  let s := Pandas.replace_blank (PyStr.strip (Pandas.astype_str pd c)) in
  let pct_mask := from_option (λ t, PyStr.endswith t "%") false s in
  let s_clean := (λ t, PyStr.remove percent (PyStr.remove currency_class t)) <$> s in
  let num := Pandas.to_numeric (VStr <$> s_clean) in
  if pct_to_unit && pct_mask then Float.div100 <$> num else num.

Definition to_numeric_resilient (series : Series) (pct_to_unit : bool)
  : list (option float64) :=
  map (to_numeric_resilient_cell pct_to_unit) (cells series).

(** [re.match(r"^[A-Za-z0-9_-]{6,}$", s)]; the dollar also matches before a
    final newline. *)
Definition token_char (c : ascii) : bool :=
  PyStr.between 65 90 c || PyStr.between 97 122 c || PyStr.isdigit c
  || bool_decide (c = "_"%char) || bool_decide (c = "-"%char).

Definition long_token (l : list ascii) : bool :=
  forallb token_char l && (6 <=? length l)%nat.

Definition code_like (s : string) : bool :=
  let l := PyStr.chars s in
  long_token l ||
  match rev l with
  | c :: r => bool_decide (c = "010"%char) && long_token (rev r)
  | [] => false
  end.

(** [series.median() <= bound] for a non-empty series of lengths. *)
Definition median_le (l : list nat) (bound : nat) : bool :=
  let sorted := merge_sort Nat.le l in
  let n := length l in
  if Nat.even n
  then (sorted !!! (n / 2 - 1) + sorted !!! (n / 2) <=? 2 * bound)%nat
  else (sorted !!! (n / 2)%nat <=? bound)%nat.

(** [s.value_counts()]: the counts of the distinct values, largest first. *)
Definition value_counts (l : list string) : list nat :=
  merge_sort (flip Nat.le)
    (map (λ v, Pandas.count (λ x, bool_decide (x = v)) l) (remove_dups l)).

(** The ratios are compared exactly.  [coverage] is the exact share of the
    ten most frequent labels; pandas adds ten rounded quotients, a sum that
    can miss the exact one by a few units in the last place when the share
    is 0.8 to the last digit. *)
Definition looks_categorical (series : Series) (n_rows : nat) : bool :=
  let s := map (λ v, PyStr.strip (Pandas.str_of pd v)) (omap id (cells series)) in
  if Nat.eqb n_rows 0 || Nat.eqb (length s) 0 then false
  else
    let uniq := length (remove_dups s) in
    if (n_rows <? 2 * uniq)%nat then false
    else if Pandas.mean_gt (Pandas.count code_like s) (length s) 3 10 then false
    else
      let short_labels := median_le (map PyStr.len s) 25 in
      let abs_low := (uniq <=? 50)%nat in
      let rel_low := (5 * uniq <=? Nat.max n_rows 1)%nat in
      let coverage := (4 * length s <=? 5 * sum_list (take 10 (value_counts s)))%nat in
      (3 <=? Pandas.count id [short_labels; abs_low; rel_low; coverage])%nat.

(** An entry of [conversions]: the column and the type it was given. *)
Definition conversion : Type := string * string.

(** Rule 1, date and time. *)
Definition rule_datetime (col : string) (s : Series) : Series * list conversion :=
  if decide (dtype_of s = dt_object) then
    let parsed := Pandas.to_datetime_series pd (cells s) in
    if Pandas.mean_ge (Pandas.count Pandas.notna parsed) (length parsed) 6 10
    then (mkSeries dt_datetime64 (map (fmap VTime) parsed), [(col, "datetime")])
    else (s, [])
  else (s, []).

(** Rule 2, true and false. *)
Definition bool_token (v : value) : string :=
  PyStr.lower (PyStr.strip (Pandas.str_of pd v)).

Definition rule_bool (col : string) (s : Series) : Series * list conversion :=
  if decide (dtype_of s = dt_object) then
    let vals := map bool_token (omap id (cells s)) in
    if negb (Nat.eqb (length vals) 0)
       && Pandas.mean_ge (Pandas.count (λ v, Pandas.notna (BOOL_MAP v)) vals) (length vals) 9 10
    then (mkSeries dt_boolean
            (map (λ c, v ← c; b ← BOOL_MAP (bool_token v); Some (VBool b)) (cells s)),
          [(col, "bool")])
    else (s, [])
  else (s, []).

(** Rule 3, numbers, judged on the cells that are not blank. *)
Definition nonblank_mask (s : Series) : list bool :=
  map (λ c, Pandas.notna (Pandas.replace_blank (PyStr.strip (Pandas.astype_str pd c))))
      (cells s).

Definition whole (o : option float64) : bool :=
  match o with
  | Some x => Float.is_whole x
  | None => false
  end.

Definition numeric_qualifies (s : Series) : bool :=
  let nonblank := nonblank_mask s in
  let num := to_numeric_resilient s true in
  let filled := Pandas.mask_select nonblank num in
  (if (0 <? Pandas.count id nonblank)%nat
   then Pandas.mean_ge (Pandas.count Pandas.notna filled) (length filled) 9 10
   else false)
  && Pandas.mean_ge (Pandas.count id nonblank) (length nonblank) 1 20.

Definition rule_numeric (col : string) (s : Series) : outcome (Series * list conversion) :=
  if decide (dtype_of s = dt_object) then
    let nonblank := nonblank_mask s in
    let num := to_numeric_resilient s true in
    if numeric_qualifies s then
      if forallb whole (Pandas.mask_select nonblank num) then
        match astype_Int64 num with
        | Some ints => Returned (mkSeries dt_Int64 ints, [(col, "Int64")])
        | None => Raised
        end
      else Returned (mkSeries dt_float64 (map (fmap VFloat) num), [(col, "float64")])
    else Returned (s, [])
  else Returned (s, []).

(** Rule 4, category. *)
Definition rule_category (col : string) (n_rows : nat) (s : Series)
  : Series * list conversion :=
  if decide (dtype_of s = dt_object) then
    if looks_categorical s n_rows
    then (mkSeries dt_category (cells s), [(col, "category")])
    else (s, [])
  else (s, []).

(** The body of the loop for one column: the four rules in order, each
    looking at the column as the earlier ones left it. *)
Definition convert_column (n_rows : nat) (col : string) (s : Series)
  : outcome (Series * list conversion) :=
  let '(s1, c1) := rule_datetime col s in
  let '(s2, c2) := rule_bool col s1 in
  match rule_numeric col s2 with
  | Raised => Raised
  | Returned (s3, c3) =>
      let '(s4, c4) := rule_category col n_rows s3 in
      Returned (s4, (c1 ++ c2 ++ c3 ++ c4)%list)
  end.

(** [for col in df.columns: ...] on the table that [df] refers to; the
    memory is returned as it stands when the loop ends or raises. *)
Fixpoint convert_loop (cols : list string) (df : positive) (h : gmap positive DataFrame)
    (conversions : list conversion)
  : gmap positive DataFrame * outcome (list conversion) :=
  match cols with
  | [] => (h, Returned conversions)
  | col :: rest =>
      match h !! df with
      | None => (h, Raised)
      | Some t =>
          match get_column t col with
          | None => (h, Raised)
          | Some s =>
              match convert_column (nrows t) col s with
              | Returned (s', cs) =>
                  convert_loop rest df (setitem h df col s') (conversions ++ cs)%list
              | Raised => (h, Raised)
              end
          end
      end
  end.

(** The main content of the page: [df = st.session_state["df"]] is the
    session's own table, the loop assigns to its columns, and the same
    reference is saved back. *)
Definition main_content (w : world) : world * outcome (list conversion) :=
  match session_state w !! "df" with
  | None => (w, Returned [])
  | Some df =>
      match heap w !! df with
      | None => (w, Raised)
      | Some t =>
          let '(h', r) := convert_loop (column_names t) df (heap w) [] in
          match r with
          | Returned cs => (mkWorld h' (<["df" := df]> (session_state w)), Returned cs)
          | Raised => (mkWorld h' (session_state w), Raised)
          end
      end
  end.

(** The same loop read on the value of the table: the table it leaves and
    the log, or the table at the point where a column raised. *)
Fixpoint convert_table (cols : list string) (t : DataFrame) (conversions : list conversion)
  : DataFrame * outcome (list conversion) :=
  match cols with
  | [] => (t, Returned conversions)
  | col :: rest =>
      match get_column t col with
      | None => (t, Raised)
      | Some s =>
          match convert_column (nrows t) col s with
          | Returned (s', cs) => convert_table rest (set_column t col s') (conversions ++ cs)%list
          | Raised => (t, Raised)
          end
      end
  end.

Definition auto_type_conversions (t : DataFrame) : DataFrame * outcome (list conversion) :=
  convert_table (column_names t) t [].

End WithPandas.
End Home.

(** ** pages/05_Incremental Profiling.py *)

Module Incremental.

Definition dtype_family (dtype_str : string) : string :=
  if PyStr.contains "datetime64" dtype_str then "datetime"
  else if bool_decide (dtype_str = "boolean") || bool_decide (dtype_str = "bool") then "boolean"
  else if PyStr.contains "Int" dtype_str || PyStr.contains "int" dtype_str then "int"
  else if PyStr.contains "float" dtype_str then "float"
  else if bool_decide (dtype_str = "category") then "category"
  else "text".

(** [{c: dtype_family(str(dt)) for c, dt in BASE.dtypes.items()}] *)
Definition schema_family (BASE : DataFrame) : gmap string string :=
  list_to_map (map (λ cs, (cs.1, dtype_family (dtype_str (dtype_of cs.2)))) (columns BASE)).

Definition friendly_dtype (dtype_str : string) : string :=
  if PyStr.contains "float" dtype_str || PyStr.contains "int" dtype_str
     || PyStr.contains "Int" dtype_str
  then "Numeric"
  else if bool_decide (dtype_str = "object") then "Text"
  else if bool_decide (dtype_str = "string") then "Text"
  else if bool_decide (dtype_str = "category") then "Category"
  else if bool_decide (dtype_str = "bool") then "Boolean"
  else if bool_decide (dtype_str = "boolean") then "Boolean"
  else if bool_decide (dtype_str = "datetime64[ns]") then "Date/Time"
  else dtype_str.

Definition SENT : string := "__NA__".

Inductive indicator : Type := left_only | right_only | both.

Global Instance indicator_eq_dec : EqDecision indicator.
Proof. solve_decision. Defined.

(** [left.merge(right, on=<all columns>, how="outer", indicator=True)] on
    the rows of two frames that have the same columns. *)
Definition merge_outer {K} `{EqDecision K} (left right : list K) : list (K * indicator) :=
  (flat_map (λ l, match filter (λ r, r = l) right with
                  | [] => [(l, left_only)]
                  | ms => map (λ _, (l, both)) ms
                  end) left
   ++ map (λ r, (r, right_only)) (filter (λ r, r ∉ left) right))%list.

(** A row of a frame, and a row with its [__dup_idx__]. *)
Definition row : Type := list cell.
Definition keyed_row : Type := row * nat.

Definition get_row (df : DataFrame) (i : nat) : row :=
  map (λ cs, mjoin (cells cs.2 !! i)) (columns df).

Definition rows (df : DataFrame) : list row := map (get_row df) (seq 0 (nrows df)).

(** [df.groupby(<all columns>).cumcount()]: for each row, how many equal
    rows stand before it. *)
Fixpoint cumcount_from (seen rest : list row) : list nat :=
  match rest with
  | [] => []
  | r :: rest' =>
      Pandas.count (λ x, bool_decide (x = r)) seen :: cumcount_from (r :: seen) rest'
  end.

Definition cumcount (rs : list row) : list nat := cumcount_from [] rs.

Definition with_dup_idx (rs : list row) : list keyed_row := zip rs (cumcount rs).

(** The outcome of section 3 of the page. *)
Inductive comparison : Type :=
| NotComparable
| RowDiff (added_rows removed_rows : list keyed_row).



(** [sorted(list(base_cols & new_cols))] *)
Definition common_cols (BASE NEW : DataFrame) : list string :=
  merge_sort String.le
    (elements ((list_to_set (column_names BASE) : gset string)
               ∩ list_to_set (column_names NEW))).

(** [sorted(list(new_cols - base_cols))] and [sorted(list(base_cols -
    new_cols))] *)
Definition added_cols (BASE NEW : DataFrame) : list string :=
  merge_sort String.le
    (elements ((list_to_set (column_names NEW) : gset string)
               ∖ list_to_set (column_names BASE))).

Definition removed_cols (BASE NEW : DataFrame) : list string :=
  merge_sort String.le
    (elements ((list_to_set (column_names BASE) : gset string)
               ∖ list_to_set (column_names NEW))).

(** The list [dtype_changes]: for each shared column whose friendly type
    differs, the column with both types.  A shared column is a column of
    both tables, so both lookups succeed. *)
Definition dtype_changes (BASE NEW : DataFrame) : list (string * string * string) :=
  omap (λ c, sb ← get_column BASE c;
             sn ← get_column NEW c;
             let fb := friendly_dtype (dtype_str (dtype_of sb)) in
             let fn := friendly_dtype (dtype_str (dtype_of sn)) in
             if decide (fb = fn) then None else Some (c, fb, fn))
       (common_cols BASE NEW).

(** The button "Replace dataset with NEW": the backup becomes a copy of the
    baseline and the session's table a copy of the new one.  [None] when the
    session has no baseline or no new table (the page stops before). *)
Definition replace_with_new (w : world) : option world :=
  BASE ← session_state w !! "df";
  NEW ← session_state w !! "inc_new_df";
  '(h1, backup) ← copy (heap w) BASE;
  '(h2, current) ← copy h1 NEW;
  Some (mkWorld h2 (<["df" := current]> (<["df_backup" := backup]> (session_state w)))).

(** The button "Undo last replace"; the flag tells whether there was
    something to undo. *)
Definition undo_last_replace (w : world) : world * bool :=
  match session_state w !! "df_backup" with
  | Some backup =>
      (mkWorld (heap w) (delete "df_backup" (<["df" := backup]> (session_state w))), true)
  | None => (w, false)
  end.

Section WithPandas.
Context (pd : PandasLib).

Definition currency_class (c : ascii) : bool :=
  (PyStr.code c =? 163) || bool_decide (c = "$"%char) || bool_decide (c = ","%char).

Definition percent (c : ascii) : bool := bool_decide (c = "%"%char).

(** One element of this page's [to_numeric_resilient(series)]. *)
Definition to_numeric_resilient_cell (c : cell) : option float64 :=
  let s := Pandas.replace_blank (PyStr.strip (Pandas.astype_str pd c)) in
  let s := (λ t, PyStr.remove percent (PyStr.remove currency_class t)) <$> s in
  Pandas.to_numeric (VStr <$> s).

Definition to_numeric_resilient (series : Series) : list (option float64) :=
  map to_numeric_resilient_cell (cells series).

(** The body of the [try]: the new column for a family, or [None] when the
    statement raises. *)
Definition coerce_column (fam : string) (s : Series) : option Series :=
  if bool_decide (fam = "datetime") then
    Some (mkSeries dt_datetime64
            (map (fmap VTime) (Pandas.to_datetime_series pd (cells s))))
  else if bool_decide (fam = "boolean") then
    Some (mkSeries dt_boolean
            (map (λ c, VBool <$> BOOL_MAP (PyStr.lower (PyStr.strip (Pandas.astype_str pd c))))
                 (cells s)))
  else if bool_decide (fam = "int") then
    mkSeries dt_Int64 <$> astype_Int64 (map (fmap Float.round0) (to_numeric_resilient s))
  else if bool_decide (fam = "float") then
    Some (mkSeries dt_float64 (map (fmap VFloat) (to_numeric_resilient s)))
  else if bool_decide (fam = "category") then
    Some (mkSeries dt_category
            (map (λ c, (λ t, VStr (PyStr.strip t)) <$> Pandas.astype_string pd c) (cells s)))
  else
    Some (mkSeries dt_string (map (λ c, VStr <$> Pandas.astype_string pd c) (cells s))).

(** One turn of [for c, fam in schema_fam.items()]. *)
Definition coerce_step (c fam : string) (dfc : DataFrame) : DataFrame :=
  match get_column dfc c with
  | None => dfc
  | Some s =>
      match coerce_column fam s with
      | Some s' => set_column dfc c s'
      | None => dfc
      end
  end.

(** The table that [coerce_to_schema] returns, read on values: the copy of
    [df_in] after the loop. *)
Definition coerce_to_schema (df_in : DataFrame) (schema_fam : gmap string string)
  : DataFrame :=
  map_fold coerce_step df_in schema_fam.

(** The call in the program's memory: [dfc = df_in.copy()] is a new object,
    each turn of the loop assigns to a column of [dfc], and [dfc] is
    returned.  [None] is a call on a reference that holds no table. *)
Definition coerce_step_at (dfc : positive) (c fam : string) (h : gmap positive DataFrame)
  : gmap positive DataFrame :=
  match getitem h dfc c with
  | None => h
  | Some s =>
      match coerce_column fam s with
      | Some s' => setitem h dfc c s'
      | None => h
      end
  end.

Definition coerce_to_schema_call (h : gmap positive DataFrame) (df_in : positive)
    (schema_fam : gmap string string) : option (gmap positive DataFrame * positive) :=
  t ← h !! df_in;
  let dfc := fresh (dom h) in
  Some (map_fold (coerce_step_at dfc) (<[dfc := t]> h) schema_fam, dfc).

(** One element of the column that [normalize_for_rowdiff] writes for a
    series of type [d] whose date format is guessed from [first]. *)
Definition normalize_cell (d : dtype) (first : option value) (c : cell) : string :=
  let s_dt := Pandas.to_datetime_cell pd first c in
  let s_num := Pandas.to_numeric_of d c in
  let col_norm :=
    match s_dt with
    | Some t => strftime pd t
    | None =>
        match s_num with
        | Some x => PyStr.rstrip_char "." (PyStr.rstrip_char "0" (Float.fixed6 x))
        | None => PyStr.strip (default SENT (Pandas.astype_string pd c))
        end
    end in
  if bool_decide (col_norm = "") then SENT else col_norm.

(** The body of the loop: the column [col_norm] written for the series
    [s]. *)
Definition normalize_column (s : Series) : Series :=
  mkSeries dt_string
    (map (λ x, Some (VStr (normalize_cell (dtype_of s) (Pandas.first_non_null (cells s)) x)))
         (cells s)).

(** [None] is the [KeyError] of [df[c]] for a name that is not a column. *)
Definition normalize_for_rowdiff (df : DataFrame) (cols : list string) : option DataFrame :=
  out ← mapM (λ c, s ← get_column df c; Some (c, normalize_column s)) cols;
  Some (mkDataFrame (nrows df) out).

(** Section 3 of the page, "Row changes". *)
Definition row_changes (BASE NEW : DataFrame) : outcome comparison :=
  let common := common_cols BASE NEW in
  if Nat.eqb (length common) 0 then Returned NotComparable
  else
    match normalize_for_rowdiff BASE common, normalize_for_rowdiff NEW common with
    | Some BASE_N, Some NEW_N =>
        let diff := merge_outer (with_dup_idx (rows BASE_N)) (with_dup_idx (rows NEW_N)) in
        let removed_rows := (filter (λ d, d.2 = left_only) diff).*1 in
        let added_rows := (filter (λ d, d.2 = right_only) diff).*1 in
        Returned (RowDiff added_rows removed_rows)
    | _, _ => Raised
    end.

End WithPandas.
End Incremental.

(** ** The readers' cleanup

    What [read_csv_safely] of [Home.py] and [read_csv_safely_bytes] of the
    incremental page do to the frame that [pd.read_csv] returned, once the
    headers are normalised. *)

Module Upload.

(** [re.match(r"^Unnamed(:\s*\d+)?$", name, flags=re.I)]; the dollar also
    matches before a final newline. *)
Definition at_end (l : list ascii) : bool :=
  match l with
  | [] => true
  | [c] => bool_decide (c = "010"%char)
  | _ => false
  end.

Definition unnamed_suffix (l : list ascii) : bool :=
  at_end l
  || match l with
     | c :: l' =>
         bool_decide (c = ":"%char)
         && (let rest := PyStr.lstrip_by PyStr.isspace l' in
             negb (Nat.eqb (length rest) (length (PyStr.lstrip_by PyStr.isdigit rest)))
             && at_end (PyStr.lstrip_by PyStr.isdigit rest))
     | [] => false
     end.

Definition is_unnamed (name : string) : bool :=
  let l := PyStr.chars name in
  bool_decide (map PyStr.lower_char (take 7 l) = PyStr.chars "unnamed")
  && unnamed_suffix (drop 7 l).

(** A column that [dropna(axis=1, how="all")] drops. *)
Definition all_missing (s : Series) : bool :=
  forallb (λ c, negb (Pandas.notna c)) (cells s).

(** [df.loc[:, ~unnamed]] and [dropna(axis=1, how="all")]; the headers are
    texts, so [df.loc[:, df.columns.notna()]] keeps every column. *)
Definition drop_junk_columns (df : DataFrame) : DataFrame :=
  mkDataFrame (nrows df)
    (filter (λ cs, all_missing cs.2 = false)
       (filter (λ cs, is_unnamed cs.1 = false) (columns df))).

(** [read_csv_safely] from the parsed frame on: the frame and
    [dropped_cols]. *)
Definition read_csv_safely (df : DataFrame) : DataFrame * nat :=
  let before_cols := length (columns df) in
  let out := drop_junk_columns df in
  (out, before_cols - length (columns out))%nat.

(** [df.replace(r"^\s*$", pd.NA, regex=True)] on one cell: only text is
    matched. *)
Definition blank_to_missing (c : cell) : cell :=
  match c with
  | Some (VStr t) => if forallb PyStr.isspace (PyStr.chars t) then None else c
  | _ => c
  end.

Definition replace_blank_cells (df : DataFrame) : DataFrame :=
  mkDataFrame (nrows df)
    (map (λ cs, (cs.1, mkSeries (dtype_of cs.2) (map blank_to_missing (cells cs.2))))
         (columns df)).

(** [df.dropna(how="all")]: the rows with a value in some column, in
    order. *)
Definition row_all_missing (cols : list (string * Series)) (i : nat) : bool :=
  forallb (λ cs, negb (Pandas.notna (mjoin (cells cs.2 !! i)))) cols.

Definition dropna_rows (df : DataFrame) : DataFrame :=
  let keep := filter (λ i, row_all_missing (columns df) i = false) (seq 0 (nrows df)) in
  mkDataFrame (length keep)
    (map (λ cs, (cs.1, mkSeries (dtype_of cs.2)
                         (map (λ i, mjoin (cells cs.2 !! i)) keep)))
         (columns df)).

(** [read_csv_safely_bytes] from the parsed frame on. *)
Definition read_csv_safely_bytes (df : DataFrame) : DataFrame :=
  dropna_rows (replace_blank_cells (drop_junk_columns df)).

End Upload.

(** ** A reference instance of the library calls

    Enough of pandas to run the model: dates in the forms [YYYY-MM-DD] and
    [YYYY-MM-DD HH:MM:SS], of which a column is read in the one form of its
    first cell that holds a value; numbers read as nanoseconds since the
    epoch (the default unit of [pd.to_datetime]); and [str()] of integers,
    booleans and timestamps. *)

Module Iso.

Definition days_from_civil (y m d : Z) : Z :=
  let y' := if m <=? 2 then y - 1 else y in
  let era := y' / 400 in
  let yoe := y' - era * 400 in
  let mp := (m + 9) mod 12 in
  let doy := (153 * mp + 2) / 5 + d - 1 in
  let doe := yoe * 365 + yoe / 4 - yoe / 100 + doy in
  era * 146097 + doe - 719468.

Definition civil_from_days (z : Z) : Z * Z * Z :=
  let z := z + 719468 in
  let era := z / 146097 in
  let doe := z - era * 146097 in
  let yoe := (doe - doe / 1460 + doe / 36524 - doe / 146096) / 365 in
  let y := yoe + era * 400 in
  let doy := doe - (365 * yoe + yoe / 4 - yoe / 100) in
  let mp := (5 * doy + 2) / 153 in
  let d := doy - (153 * mp + 2) / 5 + 1 in
  let m := if mp <? 10 then mp + 3 else mp - 9 in
  (if m <=? 2 then y + 1 else y, m, d).

Definition leap (y : Z) : bool :=
  ((y mod 4 =? 0) && negb (y mod 100 =? 0)) || (y mod 400 =? 0).

Definition days_in_month (y m : Z) : Z :=
  if m =? 2 then (if leap y then 29 else 28)
  else if (m =? 4) || (m =? 6) || (m =? 9) || (m =? 11) then 30
  else 31.

(** Exactly [n] digits, then the rest. *)
Fixpoint fixed_digits (n : nat) (l : list ascii) (acc : Z) : option (Z * list ascii) :=
  match n with
  | O => Some (acc, l)
  | S n' =>
      match l with
      | c :: l' =>
          match Float.digit_val c with
          | Some d => fixed_digits n' l' (10 * acc + d)
          | None => None
          end
      | [] => None
      end
  end.

Definition expect (c : ascii) (l : list ascii) : option (list ascii) :=
  match l with
  | c' :: l' => if bool_decide (c' = c) then Some l' else None
  | [] => None
  end.

Definition ns_per_second : Z := 1000000000.

Definition parse_time (l : list ascii) : option Z :=
  match l with
  | [] => Some 0
  | _ =>
      l ← expect " " l;
      '(hh, l) ← fixed_digits 2 l 0;
      l ← expect ":" l;
      '(mi, l) ← fixed_digits 2 l 0;
      l ← expect ":" l;
      '(ss, l) ← fixed_digits 2 l 0;
      match l with
      | [] => if (hh <? 24) && (mi <? 60) && (ss <? 60)
              then Some (hh * 3600 + mi * 60 + ss) else None
      | _ :: _ => None
      end
  end.

Definition parse_iso (s : string) : option Z :=
  '(y, l) ← fixed_digits 4 (PyStr.chars s) 0;
  l ← expect "-" l;
  '(m, l) ← fixed_digits 2 l 0;
  l ← expect "-" l;
  '(d, l) ← fixed_digits 2 l 0;
  secs ← parse_time l;
  if (1678 <=? y) && (y <=? 2261) && (1 <=? m) && (m <=? 12)
     && (1 <=? d) && (d <=? days_in_month y m)
  then Some ((days_from_civil y m d * 86400 + secs) * ns_per_second)
  else None.

Definition pad (width : nat) (z : Z) : string :=
  let s := pretty z in
  PyStr.str (replicate (width - String.length s) "0"%char) +:+ s.

Definition iso_strftime (t : Z) : string :=
  let secs := t / ns_per_second in
  let '(y, m, d) := civil_from_days (secs / 86400) in
  let sod := secs mod 86400 in
  pad 4 y +:+ "-" +:+ pad 2 m +:+ "-" +:+ pad 2 d +:+ " " +:+
  pad 2 (sod / 3600) +:+ ":" +:+ pad 2 (sod mod 3600 / 60) +:+ ":" +:+ pad 2 (sod mod 60).

(** The form guessed from the first cell: a date alone ([false]), a date
    with a time ([true]), or none. *)
Definition guess_format (first : option value) : option bool :=
  match first with
  | Some (VStr s) =>
      match parse_iso s with
      | Some _ => Some (10 <? String.length s)%nat
      | None => None
      end
  | _ => None
  end.

Definition iso_to_datetime (first : option value) (v : value) : option Z :=
  match v with
  | VStr s =>
      match guess_format first with
      | Some with_time =>
          if Bool.eqb with_time (10 <? String.length s)%nat then parse_iso s else None
      | None => parse_iso s
      end
  | VInt z => Some z
  | VFloat (Finite q) => Some (Qfloor q)
  | VFloat _ => None
  | VBool _ => None
  | VTime t => Some t
  end.

Definition iso_py_str (v : value) : string :=
  match v with
  | VStr s => s
  | VInt z => pretty z
  | VFloat x => PyStr.rstrip_char "0" (Float.fixed6 x)
  | VBool b => if b then "True" else "False"
  | VTime t => iso_strftime t
  end.

Definition pandas : PandasLib := mkPandasLib iso_to_datetime iso_strftime iso_py_str.

End Iso.

(** ** Vocabulary of the statements *)

(** A parsed number that the cast to [Int64] accepts once rounded. *)
Definition fits_int64 (o : option float64) : Prop :=
  match o with
  | Some (Finite q) =>
      Float.int64_min ≤ Float.round_half_even q ∧ Float.round_half_even q ≤ Float.int64_max
  | Some _ => False
  | None => True
  end.

(** A parsed number, where there is one, is a plain decimal. *)
Definition plain_number (o : option float64) : Prop :=
  match o with
  | Some x => Float.plain x = true
  | None => True
  end.

Global Instance plain_number_dec (o : option float64) : Decision (plain_number o).
Proof. destruct o; simpl; apply _. Defined.

(** The integer cell a parsed number is rounded to. *)
Definition rounded_cell (o : option float64) : cell :=
  match o with
  | Some (Finite q) => Some (VInt (Float.round_half_even q))
  | _ => None
  end.

(** A text column. *)
Definition text_column (l : list (option string)) : Series :=
  mkSeries dt_object (map (fmap VStr) l).

(** The cells of a column that are not blank, as rule 3 counts them, the
    numbers read from them ([num[nonblank]]), and how many were read. *)
Definition n_nonblank (pd : PandasLib) (s : Series) : nat :=
  Pandas.count id (Home.nonblank_mask pd s).

Definition filled (pd : PandasLib) (s : Series) : list (option float64) :=
  Pandas.mask_select (Home.nonblank_mask pd s) (Home.to_numeric_resilient pd s true).

Definition n_parsed (pd : PandasLib) (s : Series) : nat :=
  Pandas.count Pandas.notna (filled pd s).

(** The two thresholds of rule 3 in the spec's words: there are non-blank
    cells, at least 90% of them parse, and they are at least 5% of the
    rows. *)
Definition thresholds_met (pd : PandasLib) (s : Series) : Prop :=
  (0 < n_nonblank pd s)%nat
  ∧ 9 * Z.of_nat (n_nonblank pd s) ≤ 10 * Z.of_nat (n_parsed pd s)
  ∧ Z.of_nat (length (cells s)) ≤ 20 * Z.of_nat (n_nonblank pd s).

(** Text made of white space only (the empty text included), and the cells
    the row comparison takes for empty. *)
Definition whitespace_only (s : string) : Prop :=
  forallb PyStr.isspace (PyStr.chars s) = true.




(** A text column: [object], as the CSV reader leaves it, or [string]. *)
Definition text_dtype (d : dtype) : Prop := d = dt_object ∨ d = dt_string.




(** A table as pandas keeps it: no two columns of one name, and every
    column as long as the index. *)
Definition well_formed (df : DataFrame) : Prop :=
  NoDup (column_names df) ∧ Forall (λ cs, length (cells cs.2) = nrows df) (columns df).




(** The type that goes with each name the typing loop writes in its log. *)
Definition logged_as (name : string) : option dtype :=
  if bool_decide (name = "datetime") then Some dt_datetime64
  else if bool_decide (name = "bool") then Some dt_boolean
  else if bool_decide (name = "Int64") then Some dt_Int64
  else if bool_decide (name = "float64") then Some dt_float64
  else if bool_decide (name = "category") then Some dt_category
  else None.

(** What one turn of the typing loop did to a column: nothing, or one
    conversion of a text column, logged under the name of its new type. *)
Definition converted_once (col : string) (s s' : Series) (cs : list Home.conversion)
  : Prop :=
  (s' = s ∧ cs = [])
  ∨ (dtype_of s = dt_object ∧ dtype_of s' ≠ dt_object
     ∧ ∃ name, cs = [(col, name)] ∧ logged_as name = Some (dtype_of s')).



(** The stripped text of a cell as both numeric normalizers see it, and
    the cells in which the two files' currency classes remove the same
    characters: those without the code point 194, which only [Home.py]'s
    class holds. *)
Definition stripped (pd : PandasLib) (c : cell) : string :=
  PyStr.strip (Pandas.astype_str pd c).

Definition same_currency_class (pd : PandasLib) (c : cell) : Prop :=
  Forall (λ a, PyStr.code a ≠ 194) (PyStr.chars (stripped pd c)).

(** The "Missing Values" of the profiling summary for one column:
    [df.isna().sum()]. *)
Definition missing_values (s : Series) : nat :=
  Pandas.count (λ c, negb (Pandas.notna c)) (cells s).

(** A cell that is missing before stays missing after. *)
Definition stays_missing (c c' : cell) : Prop := c = None → c' = None.

(** ** Sample tables *)

(** The spec's example: a column [age] that holds ["12.7"], here next to a
    cell that is no number. *)
Definition age_table : DataFrame :=
  mkDataFrame 2 [("age", text_column [Some "12.7"; Some "unknown"])].

(** A new upload with a column [score] that the CSV reader typed [int64];
    the baseline only knows [age]. *)
Definition scored_table : DataFrame :=
  mkDataFrame 2
    [("age", text_column [Some "31"; Some "unknown"]);
     ("score", mkSeries dt_int64 [Some (VInt 1); Some (VInt 2)])].

(** Ten text cells, nine whole numbers and one word. *)
Definition nine_numbers_one_word : Series :=
  text_column [Some "10"; Some "20"; Some "30"; Some "40"; Some "50";
               Some "60"; Some "70"; Some "80"; Some "90"; Some "abc"].

(** Ten amounts in dollars. *)
Definition ten_amounts : Series :=
  text_column [Some "$10"; Some "$20"; Some "$30"; Some "$40"; Some "$50";
               Some "$60"; Some "$70"; Some "$80"; Some "$90"; Some "$100"].







(** A session whose table has one text column of amounts in dollars. *)
Definition raw_upload : DataFrame :=
  mkDataFrame 2 [("n", text_column [Some "$10"; Some "$20"])].

Definition typed_upload : DataFrame :=
  mkDataFrame 2 [("n", mkSeries dt_Int64 [Some (VInt 10); Some (VInt 20)])].

Definition fresh_session : world :=
  mkWorld {[1%positive := raw_upload]} {["df" := 1%positive]}.

(** A baseline with a repeated row and an upload that drops one copy,
    drops another row and brings a new one. *)
Definition fruit_base : DataFrame :=
  mkDataFrame 3 [("fruit", text_column [Some "apple"; Some "apple"; Some "pear"]);
                 ("from", text_column [Some "Kent"; Some "Kent"; None])].

Definition fruit_new : DataFrame :=
  mkDataFrame 2 [("fruit", text_column [Some "apple"; Some "plum"]);
                 ("from", text_column [Some "Kent"; Some " "])].




(** A text column whose only value is too large for [Int64]. *)
Definition huge_count : Series := text_column [Some "1e30"].

(** A baseline with a whole-number column and a label column, and a raw
    upload whose first count is too large for [Int64]. *)
Definition stock_base : DataFrame :=
  mkDataFrame 2 [("units", mkSeries dt_Int64 [Some (VInt 1); Some (VInt 2)]);
                 ("item", mkSeries dt_category [Some (VStr "nut"); Some (VStr "bolt")])].

Definition stock_new_raw : DataFrame :=
  mkDataFrame 2 [("units", text_column [Some "1e30"; Some "2"]);
                 ("item", text_column [Some "nut"; Some "bolt"]);
                 ("bin", text_column [Some "A1"; Some "B4"])].

(** A session with a baseline and a reconciled upload. *)
Definition fruit_session : world :=
  mkWorld {[1%positive := fruit_base; 2%positive := fruit_new]}
          {["df" := 1%positive; "inc_new_df" := 2%positive]}.


(** A parsed file with an index column that a spreadsheet exported, an
    empty column and a column of tabs; the third row holds nothing. *)
Definition exported : DataFrame :=
  mkDataFrame 3
    [("Unnamed: 0", mkSeries dt_int64 [Some (VInt 0); Some (VInt 1); Some (VInt 2)]);
     ("name", text_column [Some "Ann"; Some "Bob"; None]);
     ("fax", mkSeries dt_float64 [None; None; None]);
     ("note", text_column [Some (String "009" ""); Some "ok"; Some (String "009" "")])].






(** * Properties *)

(** ** Running the model *)

Example parse_12_7 : Float.to_numeric_str "12.7" = Some (Finite (127 # 10)).
Proof. reflexivity. Qed.

Example parse_exp : Float.to_numeric_str " -1.5e3 " = Some (Finite (-1500 # 1)).
Proof. reflexivity. Qed.

Example parse_junk : Float.to_numeric_str "12abc" = None.
Proof. reflexivity. Qed.

Example parse_blank : Float.to_numeric_str "" = None.
Proof. reflexivity. Qed.

Example fixed6_one : Float.fixed6 (Finite 1) = "1.000000".
Proof. reflexivity. Qed.

Example round_ties : map Float.round_half_even [127 # 10; 25 # 10; 35 # 10; -5 # 2]%Q = [13; 2; 4; -2].
Proof. reflexivity. Qed.

Example iso_roundtrip :
  Iso.iso_strftime <$> Iso.parse_iso "2020-02-29 13:05:09" = Some "2020-02-29 13:05:09".
Proof. reflexivity. Qed.

Example iso_rejects : map Iso.parse_iso ["2021-02-29"; "__NA__"; ""; "12.7"] = [None; None; None; None].
Proof. reflexivity. Qed.

(** ** Columns of a table *)

Lemma lookup_replace_column c c' s cols :
  lookup_column c' (replace_column c s cols) =
  if decide (c = c') then Some s else lookup_column c' cols.
Proof.
  induction cols as [|[c0 s0] cols IH]; simpl.
  - repeat case_decide; congruence.
  - destruct (decide (c0 = c)) as [->|Hne]; simpl.
    + repeat case_decide; congruence.
    + rewrite IH. repeat case_decide; congruence.
Qed.

Lemma get_column_set_column df c c' s :
  get_column (set_column df c s) c' =
  if decide (c = c') then Some s else get_column df c'.
Proof. apply lookup_replace_column. Qed.

Lemma lookup_column_Some c s cols :
  lookup_column c cols = Some s → (c, s) ∈ cols.
Proof.
  induction cols as [|[c0 s0] cols IH]; simpl; [done|].
  case_decide; intros; simplify_eq; [left | right; auto].
Qed.

Lemma lookup_column_is_Some c cols :
  c ∈ cols.*1 → is_Some (lookup_column c cols).
Proof.
  induction cols as [|[c0 s0] cols IH]; simpl.
  - by intros ?%elem_of_nil.
  - intros [->|Hin]%elem_of_cons; case_decide; eauto; congruence.
Qed.

Lemma replace_column_names c s cols :
  is_Some (lookup_column c cols) → (replace_column c s cols).*1 = cols.*1.
Proof.
  induction cols as [|[c0 s0] cols IH]; simpl.
  - by intros [? ?].
  - case_decide; simpl; [by subst | intros; f_equal; auto].
Qed.

(** ** The schema reconciler, column by column *)

Section Reconciler.
Context (pd : PandasLib).

Lemma coerce_step_lookup c fam dfc c' :
  get_column (Incremental.coerce_step pd c fam dfc) c' =
  if decide (c = c')
  then (λ s, default s (Incremental.coerce_column pd fam s)) <$> get_column dfc c
  else get_column dfc c'.
Proof.
  unfold Incremental.coerce_step.
  destruct (get_column dfc c) as [s|] eqn:Hc; simpl.
  - destruct (Incremental.coerce_column pd fam s) as [s'|]; simpl.
    + rewrite get_column_set_column. by case_decide.
    + case_decide; by subst.
  - case_decide; by subst.
Qed.


(** Every column of the result, in terms of the input and the map. *)
Lemma coerce_to_schema_lookup df schema_fam c :
  get_column (Incremental.coerce_to_schema pd df schema_fam) c =
  (λ s, match schema_fam !! c with
        | None => s
        | Some fam => default s (Incremental.coerce_column pd fam s)
        end) <$> get_column df c.
Proof.
  unfold Incremental.coerce_to_schema.
  revert c.
  apply (map_fold_weak_ind (λ r (m : gmap string string), ∀ c,
    get_column r c =
    (λ s, match m !! c with
          | None => s
          | Some fam => default s (Incremental.coerce_column pd fam s)
          end) <$> get_column df c)).
  - intros c. rewrite lookup_empty. by destruct (get_column df c).
  - intros i fam m r Hi IH c. rewrite coerce_step_lookup.
    case_decide as Hic.
    + subst. rewrite lookup_insert_eq, IH, Hi. by destruct (get_column df c).
    + by rewrite lookup_insert_ne, IH.
Qed.


End Reconciler.

(** ** Rounding under family [int] *)

Lemma is_whole_of_Z z : Float.is_whole (Float.of_Z z) = true.
Proof.
  unfold Float.is_whole, Float.of_Z.
  rewrite Qcanon.Qred_identity; [done|]. simpl. apply Z.gcd_1_r.
Qed.

Lemma to_int64_of_Z z :
  Float.int64_min ≤ z → z ≤ Float.int64_max → Float.to_int64 (Float.of_Z z) = Some z.
Proof.
  intros Hlo Hhi. unfold Float.to_int64. fold (Float.of_Z z).
  rewrite is_whole_of_Z. unfold Float.of_Z. rewrite Qfloor_Z.
  apply Z.leb_le in Hlo, Hhi. by rewrite Hlo, Hhi.
Qed.

Lemma astype_Int64_rounded (num : list (option float64)) :
  Forall fits_int64 num →
  astype_Int64 (map (fmap Float.round0) num) = Some (map rounded_cell num).
Proof.
  intros Hfits. apply mapM_Some_2.
  induction Hfits as [|o num Ho _ IH]; rewrite ?map_cons; constructor; [|done].
  destruct o as [[q| |]|]; cbn -[Float.to_int64 Float.of_Z] in *; try done.
  destruct Ho as [Hlo Hhi]. by rewrite (to_int64_of_Z _ Hlo Hhi).
Qed.

(** A plain decimal lies within fifteen digits of zero, so that its floor
    and the integer it rounds to are far inside the range of [Int64]. *)
Lemma plain_bound (q : Q) :
  Float.plain (Finite q) = true →
  (- inject_Z (10 ^ 15 - 1) <= q)%Q ∧ (q <= inject_Z (10 ^ 15 - 1))%Q.
Proof.
  unfold Float.plain. intros [Hb _]%andb_true_iff.
  apply Qle_bool_iff in Hb. by apply Qabs_Qle_condition in Hb.
Qed.

Lemma floor_bound (q : Q) (B : Z) :
  (- inject_Z B <= q)%Q ∧ (q <= inject_Z B)%Q → - B ≤ Qfloor q ∧ Qfloor q ≤ B.
Proof.
  intros [Hlo Hhi]. split.
  - apply Qfloor_resp_le in Hlo.
    change (- inject_Z B)%Q with (inject_Z (- B)) in Hlo.
    by rewrite Qfloor_Z in Hlo.
  - apply Qfloor_resp_le in Hhi. by rewrite Qfloor_Z in Hhi.
Qed.

Lemma round_half_even_bound (q : Q) :
  Qfloor q ≤ Float.round_half_even q ∧ Float.round_half_even q ≤ Qfloor q + 1.
Proof.
  unfold Float.round_half_even. cbv zeta.
  destruct (Qcompare _ _); [destruct (Z.even _)|..]; lia.
Qed.

Lemma plain_fits_int64 (o : option float64) : plain_number o → fits_int64 o.
Proof.
  destruct o as [[q| |]|]; simpl; [|done..].
  intros Hp%plain_bound%floor_bound.
  pose proof (round_half_even_bound q).
  unfold Float.int64_min, Float.int64_max.
  change (10 ^ 15 - 1) with 999999999999999 in Hp.
  change (2 ^ 63) with 9223372036854775808. lia.
Qed.

(** C1 (amended): when the family map gives a column the family [int] and
    every number read from it is a plain decimal, [coerce_to_schema] parses
    each cell with the page's numeric normalizer and rounds the parsed
    number to the nearest integer, ties to even; the column is typed
    [Int64], never a float type, and a cell is null exactly when the
    normalizer yields nothing for it. *)
Theorem coerce_int_rounds (pd : PandasLib) (df : DataFrame)
    (schema_fam : gmap string string) (c : string) (s : Series) :
  schema_fam !! c = Some "int" →
  get_column df c = Some s →
  Forall (λ x, plain_number (Incremental.to_numeric_resilient_cell pd x)) (cells s) →
  get_column (Incremental.coerce_to_schema pd df schema_fam) c =
  Some (mkSeries dt_Int64
          (map (λ x, rounded_cell (Incremental.to_numeric_resilient_cell pd x)) (cells s))).
Proof.
  intros Hfam Hc Hplain.
  rewrite coerce_to_schema_lookup, Hc, Hfam. simpl. f_equal.
  unfold Incremental.coerce_column, Incremental.to_numeric_resilient. simpl.
  rewrite astype_Int64_rounded; [by rewrite map_map|].
  apply Forall_map. eapply Forall_impl; [exact Hplain|].
  intros x. apply plain_fits_int64.
Qed.

Lemma coerce_int_rounds_witness :
  get_column (Incremental.coerce_to_schema Iso.pandas age_table {["age" := "int"]}) "age"
  = Some (mkSeries dt_Int64 [Some (VInt 13); None]).
Proof.
  rewrite (coerce_int_rounds Iso.pandas age_table {["age" := "int"]} "age"
             (text_column [Some "12.7"; Some "unknown"])).
  - vm_compute. reflexivity.
  - vm_compute. reflexivity.
  - vm_compute. reflexivity.
  - constructor; [|constructor; [exact I | constructor]].
    vm_compute. reflexivity.
Defined.

(** C1 as the spec words it fails: the cell ["12.7"] under family [int]
    becomes the integer 13, not null. *)
Lemma coerce_int_12_7_is_13 :
  get_column (Incremental.coerce_to_schema Iso.pandas age_table {["age" := "int"]}) "age"
  = Some (mkSeries dt_Int64 [Some (VInt 13); None])
  ∧ get_column (Incremental.coerce_to_schema Iso.pandas age_table {["age" := "int"]}) "age"
    ≠ Some (mkSeries dt_Int64 [None; None]).
Proof. split; [vm_compute; reflexivity | vm_compute; discriminate]. Qed.

(** ** Columns the family map does not name *)

(** C2 (amended): a column of the input that the family map does not name
    is left exactly as it is in the input, cells and type alike; it is Text
    in the output exactly when it was Text in the input. *)
Theorem coerce_absent_unchanged (pd : PandasLib) (df : DataFrame)
    (schema_fam : gmap string string) (c : string) :
  schema_fam !! c = None →
  get_column (Incremental.coerce_to_schema pd df schema_fam) c = get_column df c.
Proof.
  intros Hc. rewrite coerce_to_schema_lookup, Hc.
  by destruct (get_column df c).
Qed.

Lemma coerce_absent_unchanged_witness :
  get_column (Incremental.coerce_to_schema Iso.pandas scored_table {["age" := "int"]}) "score"
  = Some (mkSeries dt_int64 [Some (VInt 1); Some (VInt 2)]).
Proof.
  rewrite (coerce_absent_unchanged Iso.pandas scored_table {["age" := "int"]} "score").
  - vm_compute. reflexivity.
  - vm_compute. reflexivity.
Defined.

(** C2 as the spec words it fails: the added column [score] is absent from
    the family map and comes out Numeric, not Text. *)
Lemma coerce_absent_not_text :
  ({["age" := "int"]} : gmap string string) !! "score" = None
  ∧ (λ s, Incremental.friendly_dtype (dtype_str (dtype_of s))) <$>
      get_column (Incremental.coerce_to_schema Iso.pandas scored_table {["age" := "int"]})
                 "score"
    = Some "Numeric".
Proof. split; vm_compute; reflexivity. Qed.

(** ** No exception leaves the reconciler *)


(** The cast of an infinite or oversized number raises, the column stays as
    it was, and the column next to it is still coerced. *)
Example coerce_failure_is_local :
  columns (Incremental.coerce_to_schema Iso.pandas
             (mkDataFrame 2 [("qty", text_column [Some "7"; Some "1e30"]);
                             ("price", text_column [Some "2.5"; Some "inf"])])
             {["qty" := "int"; "price" := "float"]})
  = [("qty", text_column [Some "7"; Some "1e30"]);
     ("price", mkSeries dt_float64 [Some (VFloat (Finite (5 # 2))); Some (VFloat PInf)])].
Proof. vm_compute. reflexivity. Qed.

(** ** The percent sign in the two normalizers *)

Lemma endswith_percent_not_blank t :
  PyStr.endswith t "%" = true → Pandas.replace_blank t = Some t.
Proof.
  intros Ht. unfold Pandas.replace_blank.
  repeat case_bool_decide; subst; simpl; try done; by vm_compute in Ht.
Qed.

(** On the classifier's path a text cell that ends with the percent sign is
    read without its percent, currency and comma characters and divided by
    one hundred. *)
Lemma home_percent_scaled (pd : PandasLib) (s : string) :
  PyStr.endswith (PyStr.strip s) "%" = true →
  Home.to_numeric_resilient_cell pd true (Some (VStr s)) =
  Float.div100 <$>
    Float.to_numeric_str
      (PyStr.remove Home.percent (PyStr.remove Home.currency_class (PyStr.strip s))).
Proof.
  intros Hpct. unfold Home.to_numeric_resilient_cell. simpl.
  rewrite (endswith_percent_not_blank _ Hpct). simpl. by rewrite Hpct.
Qed.

(** On the reconciler's path the same cell is read without its percent sign
    and not divided. *)
Lemma incremental_percent_unscaled (pd : PandasLib) (s : string) :
  PyStr.endswith (PyStr.strip s) "%" = true →
  Incremental.to_numeric_resilient_cell pd (Some (VStr s)) =
  Float.to_numeric_str
    (PyStr.remove Incremental.percent
       (PyStr.remove Incremental.currency_class (PyStr.strip s))).
Proof.
  intros Hpct. unfold Incremental.to_numeric_resilient_cell. simpl.
  by rewrite (endswith_percent_not_blank _ Hpct).
Qed.

(** C6 at the cell ["50%"]: [Home.py] reads one half, the reconciler's
    normalizer reads fifty, and so does the coercion to family [float]. *)
Theorem percent_cell_in_both_files (pd : PandasLib) :
  Home.to_numeric_resilient_cell pd true (Some (VStr "50%")) = Some (Finite (1 # 2))
  ∧ Incremental.to_numeric_resilient_cell pd (Some (VStr "50%")) = Some (Finite 50)
  ∧ Incremental.coerce_column pd "float" (text_column [Some "50%"])
    = Some (mkSeries dt_float64 [Some (VFloat (Finite 50))]).
Proof. repeat split; vm_compute; reflexivity. Qed.

(** ** Rule 3 of the classifier *)

Section Classifier.
Context (pd : PandasLib).

Lemma length_mask_select {A} (mask : list bool) (l : list A) :
  length mask = length l →
  length (Pandas.mask_select mask l) = Pandas.count id mask.
Proof.
  unfold Pandas.count. revert l.
  induction mask as [|b mask IH]; intros [|x l] Hlen; simplify_eq/=; [done|].
  destruct b; simpl; auto.
Qed.

Lemma length_filled s : length (filled pd s) = n_nonblank pd s.
Proof.
  unfold filled, n_nonblank. apply length_mask_select.
  unfold Home.nonblank_mask, Home.to_numeric_resilient. by rewrite !length_map.
Qed.

Lemma count_le_length {A} (p : A → bool) (l : list A) :
  (Pandas.count p l ≤ length l)%nat.
Proof.
  unfold Pandas.count. induction l as [|x l IH]; simpl; [lia|].
  destruct (p x); simpl; lia.
Qed.

(** The test of rule 3 is the two thresholds. *)
Lemma numeric_qualifies_iff s :
  Home.numeric_qualifies pd s = true ↔ thresholds_met pd s.
Proof.
  unfold Home.numeric_qualifies, thresholds_met, Pandas.mean_ge. cbv zeta.
  fold (filled pd s). fold (n_parsed pd s). fold (n_nonblank pd s).
  rewrite length_filled.
  replace (length (Home.nonblank_mask pd s)) with (length (cells s))
    by (unfold Home.nonblank_mask; by rewrite length_map).
  assert (n_nonblank pd s ≤ length (cells s))%nat as Hle.
  { unfold n_nonblank. etrans; [apply count_le_length|].
    unfold Home.nonblank_mask. by rewrite length_map. }
  destruct (Nat.ltb_spec 0 (n_nonblank pd s)) as [Hpos|Hzero].
  - rewrite !andb_true_iff, !negb_true_iff, !Nat.eqb_neq, !Z.leb_le. lia.
  - split; [done|]. lia.
Qed.

Lemma rule_category_dtype col n_rows s :
  dtype_of s = dt_object →
  ∃ s' cs, Home.rule_category pd col n_rows s = (s', cs)
           ∧ (dtype_of s' = dt_object ∨ dtype_of s' = dt_category).
Proof.
  intros Hobj. unfold Home.rule_category.
  case_decide; [|done].
  destruct (Home.looks_categorical pd s n_rows); eauto.
Qed.

Lemma rule_category_skips col n_rows s :
  dtype_of s ≠ dt_object → Home.rule_category pd col n_rows s = (s, []).
Proof. intros Hne. unfold Home.rule_category. by case_decide. Qed.

Lemma parsed_is_filled (l : list cell) y :
  Some y ∈ map (Home.to_numeric_resilient_cell pd true) l →
  Some y ∈ Pandas.mask_select
             (map (λ c, Pandas.notna (Pandas.replace_blank
                                        (PyStr.strip (Pandas.astype_str pd c)))) l)
             (map (Home.to_numeric_resilient_cell pd true) l).
Proof.
  induction l as [|c l IH]; simpl; [done|].
  intros [Hy|Hy]%elem_of_cons.
  - assert (Pandas.notna (Pandas.replace_blank (PyStr.strip (Pandas.astype_str pd c)))
            = true) as ->; [|rewrite <- Hy; left].
    unfold Home.to_numeric_resilient_cell in Hy. cbv zeta in Hy.
    destruct (Pandas.replace_blank _); [done|].
    simpl in Hy. discriminate.
  - destruct (Pandas.notna _); [right|]; auto.
Qed.

Lemma astype_Int64_None num :
  astype_Int64 num = None → ∃ x, Some x ∈ num ∧ Float.to_int64 x = None.
Proof.
  unfold astype_Int64. induction num as [|o num IH]; [done|].
  cbn [mapM].
  destruct o as [x|]; simpl.
  - destruct (Float.to_int64 x) eqn:Hx; simpl.
    + destruct (mapM _ num); [done|]. intros _.
      destruct IH as (y & Hy & Hnone); [done|]. exists y. split; [by right|done].
    + intros _. exists x. split; [left|done].
  - destruct (mapM _ num); [done|]. intros _.
    destruct IH as (y & Hy & Hnone); [done|]. exists y. split; [by right|done].
Qed.

(** A whole number read from a plain decimal is cast to [Int64], also
    after the division of a percentage. *)
Lemma to_int64_bounded (q : Q) :
  Float.is_whole (Finite q) = true →
  (- inject_Z (10 ^ 15 - 1) <= q)%Q ∧ (q <= inject_Z (10 ^ 15 - 1))%Q →
  Float.to_int64 (Finite q) = Some (Qfloor q).
Proof.
  intros Hw Hb%floor_bound. unfold Float.to_int64. rewrite Hw. cbn [andb].
  change (10 ^ 15 - 1) with 999999999999999 in Hb.
  assert ((Float.int64_min <=? Qfloor q) = true) as ->.
  { apply Z.leb_le. unfold Float.int64_min.
    change (2 ^ 63) with 9223372036854775808. lia. }
  assert ((Qfloor q <=? Float.int64_max) = true) as ->.
  { apply Z.leb_le. unfold Float.int64_max.
    change (2 ^ 63) with 9223372036854775808. lia. }
  done.
Qed.

Lemma div100_bound (q b : Q) :
  (0 <= b)%Q → (- b <= q)%Q ∧ (q <= b)%Q →
  (- b <= Qred (q * (1 # 100)))%Q ∧ (Qred (q * (1 # 100)) <= b)%Q.
Proof. intros Hb [Hlo Hhi]. rewrite Qred_correct. split; lra. Qed.

Lemma plain_cell_cast (c : cell) (x : float64) :
  plain_number (Home.to_numeric_resilient_cell pd false c) →
  Home.to_numeric_resilient_cell pd true c = Some x →
  Float.is_whole x = true →
  is_Some (Float.to_int64 x).
Proof.
  unfold Home.to_numeric_resilient_cell. cbv zeta. cbn [andb].
  destruct (Pandas.to_numeric _) as [p|]; [|by destruct (from_option _ false _)].
  cbn [plain_number]. intros Hp.
  destruct p as [q| |]; [|done..].
  apply plain_bound in Hp.
  destruct (from_option _ false _); cbn [fmap option_fmap option_map Float.div100];
    intros ? Hw; simplify_eq.
  - rewrite to_int64_bounded; [eauto|done|]. by apply div100_bound.
  - rewrite to_int64_bounded; eauto.
Qed.

Lemma astype_Int64_plain s :
  Forall plain_number (Home.to_numeric_resilient pd s false) →
  forallb Home.whole (filled pd s) = true →
  is_Some (astype_Int64 (Home.to_numeric_resilient pd s true)).
Proof.
  intros Hplain Hwhole.
  destruct (astype_Int64 _) as [ints|] eqn:Hcast; [eauto|].
  apply astype_Int64_None in Hcast as (x & Hx & Hnone).
  assert (Home.whole (Some x) = true) as Hw.
  { apply (proj1 (forallb_forall _ _) Hwhole). apply list_elem_of_In.
    unfold filled, Home.nonblank_mask, Home.to_numeric_resilient.
    by apply parsed_is_filled. }
  unfold Home.to_numeric_resilient in Hx, Hplain.
  apply list_elem_of_In, in_map_iff in Hx as (c & Hc & Hin).
  pose proof (proj1 (List.Forall_forall _ _) Hplain _
                (in_map (Home.to_numeric_resilient_cell pd false) _ c Hin)) as Hpc.
  destruct (plain_cell_cast c x Hpc Hc Hw) as [z Hz]. congruence.
Qed.

End Classifier.

(** C5 (amended): for a text column on which neither the date rule nor the
    boolean rule fired and whose numbers are plain decimals, when at least
    90% of the non-blank cells parse as numbers and the non-blank cells are
    at least 5% of the rows, the classifier yields Integer if every
    non-blank cell parsed to a whole number and Float otherwise, that is as
    soon as one non-blank cell did not parse or parsed to a number that is
    not whole; when a threshold fails the column does not become numeric: it
    stays Text or becomes Category. *)
Theorem classifier_numeric_rule (pd : PandasLib) (n_rows : nat) (col : string) (s : Series) :
  dtype_of s = dt_object →
  Home.rule_datetime pd col s = (s, []) →
  Home.rule_bool pd col s = (s, []) →
  Forall plain_number (Home.to_numeric_resilient pd s false) →
  (thresholds_met pd s →
     (forallb Home.whole (filled pd s) = true →
        ∃ ints, astype_Int64 (Home.to_numeric_resilient pd s true) = Some ints
                ∧ Home.convert_column pd n_rows col s
                  = Returned (mkSeries dt_Int64 ints, [(col, "Int64")]))
     ∧ (forallb Home.whole (filled pd s) = false →
        Home.convert_column pd n_rows col s
        = Returned (mkSeries dt_float64
                      (map (fmap VFloat) (Home.to_numeric_resilient pd s true)),
                    [(col, "float64")])))
  ∧ (¬ thresholds_met pd s →
     ∃ s' cs, Home.convert_column pd n_rows col s = Returned (s', cs)
              ∧ (dtype_of s' = dt_object ∨ dtype_of s' = dt_category)).
Proof.
  intros Hobj Hdt Hbool Hplain. unfold Home.convert_column. rewrite Hdt, Hbool.
  unfold Home.rule_numeric. rewrite decide_True by done.
  fold (filled pd s). split.
  - intros Hq%numeric_qualifies_iff. rewrite Hq. split.
    + intros Hwhole.
      destruct (astype_Int64_plain pd s Hplain Hwhole) as [ints Hcast].
      exists ints. split; [done|]. rewrite Hwhole, Hcast.
      by rewrite rule_category_skips.
    + intros Hwhole. rewrite Hwhole. by rewrite rule_category_skips.
  - intros Hq. destruct (Home.numeric_qualifies pd s) eqn:Hnq.
    { by apply numeric_qualifies_iff in Hnq. }
    destruct (rule_category_dtype pd col n_rows s Hobj) as (s' & cs & -> & Hty).
    eauto.
Qed.

Lemma classifier_numeric_rule_witness :
  Home.convert_column Iso.pandas 10 "n" ten_amounts
  = Returned (mkSeries dt_Int64 (map (λ z, Some (VInt z)) [10; 20; 30; 40; 50; 60; 70; 80; 90; 100]),
              [("n", "Int64")]).
Proof.
  destruct (classifier_numeric_rule Iso.pandas 10 "n" ten_amounts) as [Hnum _].
  - vm_compute. reflexivity.
  - vm_compute. reflexivity.
  - vm_compute. reflexivity.
  - apply (bool_decide_unpack _). vm_compute. exact I.
  - destruct Hnum as [Hint _].
    + unfold thresholds_met.
      split; [|split]; [apply Nat.ltb_lt | apply Z.leb_le | apply Z.leb_le];
        vm_compute; reflexivity.
    + destruct Hint as (ints & Hcast & Hrun); [vm_compute; reflexivity|].
      rewrite Hrun. vm_compute in Hcast. by simplify_eq.
Defined.

(** C5 as the spec words it fails: both thresholds hold, no earlier rule
    fired and every value that parsed is whole, yet the column becomes
    Float because one non-blank cell did not parse. *)
Lemma classifier_float_despite_whole_values :
  Home.rule_datetime Iso.pandas "n" nine_numbers_one_word = (nine_numbers_one_word, [])
  ∧ Home.rule_bool Iso.pandas "n" nine_numbers_one_word = (nine_numbers_one_word, [])
  ∧ Home.numeric_qualifies Iso.pandas nine_numbers_one_word = true
  ∧ forallb (λ o, match o with Some x => Float.is_whole x | None => true end)
      (Home.to_numeric_resilient Iso.pandas nine_numbers_one_word true) = true
  ∧ (λ r, match r with
          | Returned (s', cs) => Some (dtype_of s', cs)
          | Raised => None
          end) (Home.convert_column Iso.pandas 10 "n" nine_numbers_one_word)
    = Some (dt_float64, [("n", "float64")]).
Proof. repeat split; vm_compute; reflexivity. Qed.

(** ** The outer merge *)

Section Merge.
Context {K : Type} `{EqDecision K}.
Implicit Types left right : list K.

Lemma filter_both_nil (l : K) (ms : list K) (i : Incremental.indicator) :
  i ≠ Incremental.both →
  filter (λ d : K * Incremental.indicator, d.2 = i) (map (λ _, (l, Incremental.both)) ms) = [].
Proof.
  intros Hi. induction ms as [|m ms IH]; [done|].
  simpl. rewrite filter_cons_False; [done|]. simpl. congruence.
Qed.

Lemma filter_right_only (i : Incremental.indicator) (rs : list K) :
  filter (λ d : K * Incremental.indicator, d.2 = i) (map (λ r, (r, Incremental.right_only)) rs) =
  if decide (i = Incremental.right_only) then map (λ r, (r, Incremental.right_only)) rs else [].
Proof.
  induction rs as [|r rs IH]; simpl; [by case_decide|].
  case_decide as Hi.
  - rewrite filter_cons_True by done. by rewrite IH.
  - rewrite filter_cons_False by (simpl; congruence). done.
Qed.

Lemma matches_nil (l : K) right : filter (λ r, r = l) right = [] ↔ l ∉ right.
Proof.
  split.
  - intros Hnil Hin. by eapply (filter_nil_not_elem_of _ _ l Hnil).
  - intros Hnot. induction right as [|r right IH]; [done|].
    apply not_elem_of_cons in Hnot as [Hne Hnot].
    rewrite filter_cons_False by congruence. auto.
Qed.

Lemma flat_map_left_only left right :
  (filter (λ d : K * Incremental.indicator, d.2 = Incremental.left_only)
     (flat_map (λ l, match filter (λ r, r = l) right with
                     | [] => [(l, Incremental.left_only)]
                     | ms => map (λ _, (l, Incremental.both)) ms
                     end) left)).*1 =
  filter (λ l, l ∉ right) left.
Proof.
  induction left as [|l left IH]; [done|].
  cbn [flat_map]. rewrite filter_app, fmap_app, IH.
  destruct (filter (λ r, r = l) right) as [|m ms] eqn:Hm.
  - apply matches_nil in Hm. rewrite (filter_cons_True _ l) by done.
    by rewrite filter_cons_True.
  - assert (l ∈ right) as Hin.
    { destruct (decide (l ∈ right)) as [|Hnot]; [done|].
      apply matches_nil in Hnot. congruence. }
    rewrite (filter_cons_False _ l) by (intros ?; done).
    by rewrite filter_both_nil.
Qed.

(** The rows marked [left_only] are the left rows without a partner. *)
Lemma merge_outer_left_only left right :
  (filter (λ d, d.2 = Incremental.left_only) (Incremental.merge_outer left right)).*1 =
  filter (λ l, l ∉ right) left.
Proof.
  unfold Incremental.merge_outer.
  rewrite filter_app, filter_right_only. rewrite decide_False by done.
  rewrite app_nil_r. apply flat_map_left_only.
Qed.

Lemma flat_map_no_right_only left right :
  filter (λ d : K * Incremental.indicator, d.2 = Incremental.right_only)
    (flat_map (λ l, match filter (λ r, r = l) right with
                    | [] => [(l, Incremental.left_only)]
                    | ms => map (λ _, (l, Incremental.both)) ms
                    end) left) = [].
Proof.
  induction left as [|l left IH]; [done|].
  cbn [flat_map]. rewrite filter_app, IH, app_nil_r.
  destruct (filter (λ r, r = l) right) as [|m ms].
  - by rewrite filter_cons_False.
  - by rewrite filter_both_nil.
Qed.

(** The rows marked [right_only] are the right rows without a partner. *)
Lemma merge_outer_right_only left right :
  (filter (λ d, d.2 = Incremental.right_only) (Incremental.merge_outer left right)).*1 =
  filter (λ r, r ∉ left) right.
Proof.
  unfold Incremental.merge_outer.
  rewrite filter_app, flat_map_no_right_only, filter_right_only.
  rewrite decide_True by done. simpl.
  rewrite <- list_fmap_compose. apply list_fmap_id.
Qed.

End Merge.

(** ** Occurrence indexes *)

Section DupIdx.
Implicit Types (r : Incremental.row) (rs seen : list Incremental.row).

Lemma occurrences_cons r x rs :
  Pandas.count (λ y, bool_decide (y = r)) (x :: rs) =
  if decide (x = r) then S (Pandas.count (λ y, bool_decide (y = r)) rs)
  else Pandas.count (λ y, bool_decide (y = r)) rs.
Proof.
  unfold Pandas.count. simpl.
  case_bool_decide; case_decide; done.
Qed.








Lemma occurrences_replicate_ne r r' n :
  r' ≠ r → Pandas.count (λ y, bool_decide (y = r')) (replicate n r) = 0%nat.
Proof.
  intros Hne. induction n as [|n IH]; [done|].
  simpl. by rewrite occurrences_cons, decide_False, IH.
Qed.



End DupIdx.

(** ** Shared columns and the normalized frames *)

Lemma elem_of_common_cols BASE NEW c :
  c ∈ Incremental.common_cols BASE NEW ↔ c ∈ column_names BASE ∧ c ∈ column_names NEW.
Proof.
  unfold Incremental.common_cols.
  rewrite merge_sort_Permutation, elem_of_elements, elem_of_intersection.
  by rewrite !elem_of_list_to_set.
Qed.





Section NormalizedFrames.
Context (pd : PandasLib).

(** The column that [normalize_for_rowdiff] writes for a series. *)
Lemma normalize_for_rowdiff_Some df cols :
  (∀ c, c ∈ cols → is_Some (get_column df c)) →
  ∃ out, Incremental.normalize_for_rowdiff pd df cols = Some out
         ∧ nrows out = nrows df
         ∧ Forall2 (λ c cs, ∃ s, get_column df c = Some s
                      ∧ cs = (c, Incremental.normalize_column pd s))
             cols (columns out).
Proof.
  intros Hcols. unfold Incremental.normalize_for_rowdiff.
  match goal with |- context [mapM ?f cols] => set (step := f) end.
  assert (∃ k, mapM step cols = Some k
               ∧ Forall2 (λ c cs, ∃ s, get_column df c = Some s
                            ∧ cs = (c, Incremental.normalize_column pd s)) cols k)
    as (k & Hk & HF).
  { induction cols as [|c cols IH].
    - exists []. split; [done | constructor].
    - destruct IH as (k & Hk & HF).
      { intros c' Hc'. apply Hcols. by right. }
      destruct (Hcols c) as [s Hs]; [by left|].
      eexists (_ :: k). split.
      + apply mapM_Some_2. constructor.
        * unfold step. rewrite Hs. simpl. reflexivity.
        * by apply mapM_Some_1.
      + constructor; [eauto | done]. }
  rewrite Hk. simpl. eauto.
Qed.

(** The frames of both sides exist: the shared columns are columns of
    each. *)
Lemma normalize_common_Some BASE NEW :
  (∃ b, Incremental.normalize_for_rowdiff pd BASE (Incremental.common_cols BASE NEW) = Some b)
  ∧ (∃ n, Incremental.normalize_for_rowdiff pd NEW (Incremental.common_cols BASE NEW) = Some n).
Proof.
  split.
  - destruct (normalize_for_rowdiff_Some BASE (Incremental.common_cols BASE NEW))
      as (out & Hout & _); [|eauto].
    intros c [Hb _]%elem_of_common_cols. by apply lookup_column_is_Some.
  - destruct (normalize_for_rowdiff_Some NEW (Incremental.common_cols BASE NEW))
      as (out & Hout & _); [|eauto].
    intros c [_ Hn]%elem_of_common_cols. by apply lookup_column_is_Some.
Qed.

(** What section 3 computes once the frames are at hand. *)
Lemma row_changes_unfold BASE NEW BASE_N NEW_N :
  Incremental.common_cols BASE NEW ≠ [] →
  Incremental.normalize_for_rowdiff pd BASE (Incremental.common_cols BASE NEW) = Some BASE_N →
  Incremental.normalize_for_rowdiff pd NEW (Incremental.common_cols BASE NEW) = Some NEW_N →
  Incremental.row_changes pd BASE NEW =
  Returned (Incremental.RowDiff
    (filter (λ k, k ∉ Incremental.with_dup_idx (Incremental.rows BASE_N))
            (Incremental.with_dup_idx (Incremental.rows NEW_N)))
    (filter (λ k, k ∉ Incremental.with_dup_idx (Incremental.rows NEW_N))
            (Incremental.with_dup_idx (Incremental.rows BASE_N)))).
Proof.
  intros Hne Hb Hn. unfold Incremental.row_changes. cbv zeta.
  destruct (Incremental.common_cols BASE NEW) as [|c l] eqn:Hcc; [done|].
  simpl length. cbn [Nat.eqb]. rewrite Hb, Hn.
  by rewrite merge_outer_left_only, merge_outer_right_only.
Qed.




End NormalizedFrames.

(** ** Duplicate rows *)







(** ** No shared column *)





(** ** Blank cells and the sentinel *)

Lemma chars_str l : PyStr.chars (PyStr.str l) = l.
Proof. apply list_ascii_of_string_of_list_ascii. Qed.










Section Sentinel.
Context (pd : PandasLib).

Lemma normalize_cell_null d first :
  d ≠ dt_datetime64 → Incremental.normalize_cell pd d first None = Incremental.SENT.
Proof.
  intros Hd. unfold Incremental.normalize_cell, Pandas.to_numeric_of.
  by rewrite decide_False.
Qed.

(** The missing cell of a date column is read as a number. *)
Lemma normalize_cell_missing_date first :
  Incremental.normalize_cell pd dt_datetime64 first None = "-9223372036854775808".
Proof. vm_compute. reflexivity. Qed.

Lemma to_numeric_of_text d s :
  Pandas.to_numeric_of d (Some (VStr s)) = Float.to_numeric_str s.
Proof. unfold Pandas.to_numeric_of. by case_decide. Qed.


(** A text cell that is neither a date nor a number. *)
Lemma normalize_cell_text d first s :
  to_datetime pd first (VStr s) = None → Float.to_numeric_str s = None →
  Incremental.normalize_cell pd d first (Some (VStr s)) =
  if bool_decide (PyStr.strip s = "") then Incremental.SENT else PyStr.strip s.
Proof.
  intros Hdt Hnum. unfold Incremental.normalize_cell. rewrite to_numeric_of_text.
  simpl. by rewrite Hdt, Hnum.
Qed.






End Sentinel.






(** C4 (amended): in a text column a null cell is rendered as the token
    [__NA__], and the token is not reserved: a text cell that reads
    [__NA__] is rendered as the same key.  A text cell that is neither a
    date nor a number gets the key of null exactly when its trimmed text is
    empty or is the token. *)
Theorem sentinel_collides_with_its_text (pd : PandasLib) (d : dtype)
    (first : option value) :
  text_dtype d →
  to_datetime pd first (VStr Incremental.SENT) = None →
  Incremental.normalize_cell pd d first None = Incremental.SENT
  ∧ Incremental.normalize_cell pd d first (Some (VStr Incremental.SENT)) = Incremental.SENT
  ∧ ∀ s, to_datetime pd first (VStr s) = None → Float.to_numeric_str s = None →
      (Incremental.normalize_cell pd d first (Some (VStr s))
       = Incremental.normalize_cell pd d first None
       ↔ PyStr.strip s = "" ∨ PyStr.strip s = Incremental.SENT).
Proof.
  intros Hd Hsent.
  assert (d ≠ dt_datetime64) as Hnd by (by destruct Hd as [-> | ->]).
  split; [by apply normalize_cell_null|]. split.
  - by rewrite normalize_cell_text.
  - intros s Hdt Hnum. rewrite normalize_cell_text, normalize_cell_null by done.
    case_bool_decide as Hblank; split; auto.
    intros [Hempty|Hsent']; [by destruct Hblank | done].
Qed.

Lemma sentinel_collides_with_its_text_witness :
  Incremental.normalize_cell Iso.pandas dt_object (Some (VStr " n/a ")) None
  = Incremental.SENT
  ∧ Incremental.normalize_cell Iso.pandas dt_object (Some (VStr " n/a "))
      (Some (VStr Incremental.SENT)) = Incremental.SENT
  ∧ (Incremental.normalize_cell Iso.pandas dt_object (Some (VStr " n/a "))
       (Some (VStr " n/a "))
     = Incremental.normalize_cell Iso.pandas dt_object (Some (VStr " n/a ")) None
     ↔ PyStr.strip " n/a " = "" ∨ PyStr.strip " n/a " = Incremental.SENT).
Proof.
  destruct (sentinel_collides_with_its_text Iso.pandas dt_object (Some (VStr " n/a ")))
    as (Hnull & Htext & Hother).
  { by left. }
  { vm_compute. reflexivity. }
  split; [exact Hnull|]. split; [exact Htext|].
  apply Hother; vm_compute; reflexivity.
Defined.

(** C4 as the spec words it fails: in one text column a null cell and the
    text [__NA__] get the same key. *)
Lemma null_and_sentinel_text_same_key :
  Incremental.normalize_column Iso.pandas (text_column [None; Some "__NA__"; Some "n/a"])
  = mkSeries dt_string [Some (VStr "__NA__"); Some (VStr "__NA__"); Some (VStr "n/a")].
Proof. vm_compute. reflexivity. Qed.

(** ** Tables in memory *)

Lemma setitem_insert (h : gmap positive DataFrame) df t c s :
  h !! df = Some t → setitem h df c s = <[df := set_column t c s]> h.
Proof.
  intros Ht. apply map_eq. intros l. unfold setitem.
  destruct (decide (l = df)) as [->|Hne].
  - by rewrite lookup_alter_eq, lookup_insert_eq, Ht.
  - by rewrite lookup_alter_ne, lookup_insert_ne.
Qed.

(** The loop of [Home.py] writes into the table it was given. *)
Lemma convert_loop_in_place (pd : PandasLib) cols df (h : gmap positive DataFrame) t cs :
  h !! df = Some t →
  Home.convert_loop pd cols df h cs =
  (<[df := (Home.convert_table pd cols t cs).1]> h, (Home.convert_table pd cols t cs).2).
Proof.
  revert h t cs. induction cols as [|col cols IH]; intros h t cs Ht; simpl.
  - by rewrite insert_id.
  - rewrite Ht. destruct (get_column t col) as [s|]; simpl; [|by rewrite insert_id].
    destruct (Home.convert_column pd (nrows t) col s) as [[s' cs']|]; simpl;
      [|by rewrite insert_id].
    rewrite (setitem_insert h df t col s' Ht).
    rewrite (IH _ (set_column t col s')) by apply lookup_insert_eq.
    by rewrite insert_insert_eq.
Qed.

(** The loop of [coerce_to_schema] writes into the copy only. *)
Lemma coerce_step_at_copy (pd : PandasLib) dfc c fam (h : gmap positive DataFrame) t :
  Incremental.coerce_step_at pd dfc c fam (<[dfc := t]> h)
  = <[dfc := Incremental.coerce_step pd c fam t]> h.
Proof.
  unfold Incremental.coerce_step_at, Incremental.coerce_step, getitem.
  rewrite lookup_insert_eq. simpl.
  destruct (get_column t c) as [s|]; [|done].
  destruct (Incremental.coerce_column pd fam s) as [s'|]; [|done].
  rewrite (setitem_insert _ dfc t) by apply lookup_insert_eq.
  by rewrite insert_insert_eq.
Qed.

Lemma coerce_to_schema_call_returns (pd : PandasLib) (h : gmap positive DataFrame)
    (df_in : positive) (t : DataFrame) (schema_fam : gmap string string) :
  h !! df_in = Some t →
  Incremental.coerce_to_schema_call pd h df_in schema_fam =
  Some (<[fresh (dom h) := Incremental.coerce_to_schema pd t schema_fam]> h, fresh (dom h)).
Proof.
  intros Ht. unfold Incremental.coerce_to_schema_call, Incremental.coerce_to_schema.
  rewrite Ht. simpl. do 2 f_equal. rewrite !map_fold_foldr.
  induction (map_to_list schema_fam) as [|[c fam] l IH]; [done|].
  simpl. by rewrite IH, coerce_step_at_copy.
Qed.

(** C7 (amended): [coerce_to_schema] works on a copy: its result is a new
    object and every table already in memory, its argument included, is as
    before.  The typing loop of [Home.py] does not: it assigns to the
    columns of the very table the session refers to, so after the page has
    run the session's reference is unchanged and the table behind it is the
    converted one; no raw table is kept. *)
Theorem tables_in_memory (pd : PandasLib) :
  (∀ (h : gmap positive DataFrame) df_in t schema_fam,
     h !! df_in = Some t →
     ∃ h' dfc,
       Incremental.coerce_to_schema_call pd h df_in schema_fam = Some (h', dfc)
       ∧ h !! dfc = None
       ∧ h' !! dfc = Some (Incremental.coerce_to_schema pd t schema_fam)
       ∧ ∀ l, l ≠ dfc → h' !! l = h !! l)
  ∧ (∀ w df t,
       session_state w !! "df" = Some df →
       heap w !! df = Some t →
       heap (Home.main_content pd w).1 !! df = Some (Home.auto_type_conversions pd t).1
       ∧ (∀ l, l ≠ df → heap (Home.main_content pd w).1 !! l = heap w !! l)
       ∧ session_state (Home.main_content pd w).1 !! "df" = Some df).
Proof.
  split.
  - intros h df_in t schema_fam Ht.
    rewrite (coerce_to_schema_call_returns pd h df_in t schema_fam Ht).
    eexists _, _. split; [done|]. split; [|split].
    + apply not_elem_of_dom, is_fresh.
    + apply lookup_insert_eq.
    + intros l Hl. by rewrite lookup_insert_ne.
  - intros w df t Hdf Ht. unfold Home.main_content. rewrite Hdf, Ht.
    rewrite (convert_loop_in_place pd _ df (heap w) t [] Ht).
    fold (Home.auto_type_conversions pd t).
    destruct (Home.auto_type_conversions pd t) as [t' [cs|]]; simpl.
    + rewrite lookup_insert_eq. split; [done|]. split.
      * intros l Hl. by rewrite lookup_insert_ne.
      * apply lookup_insert_eq.
    + rewrite lookup_insert_eq. split; [done|]. split; [|done].
      intros l Hl. by rewrite lookup_insert_ne.
Qed.

Lemma tables_in_memory_witness :
  (∃ h' dfc,
     Incremental.coerce_to_schema_call Iso.pandas (heap fresh_session) 1%positive
       {["n" := "int"]} = Some (h', dfc)
     ∧ h' !! dfc = Some typed_upload
     ∧ h' !! 1%positive = Some raw_upload)
  ∧ heap (Home.main_content Iso.pandas fresh_session).1 !! 1%positive = Some typed_upload.
Proof.
  destruct (tables_in_memory Iso.pandas) as [Hcopy Hloop]. split.
  - destruct (Hcopy (heap fresh_session) 1%positive raw_upload {["n" := "int"]})
      as (h' & dfc & Hcall & Hnew & Hres & Hrest); [by vm_compute|].
    exists h', dfc. split; [done|]. split.
    + rewrite Hres. vm_compute. reflexivity.
    + rewrite Hrest; [by vm_compute|]. intros <-. by vm_compute in Hnew.
  - destruct (Hloop fresh_session 1%positive raw_upload) as (Hdf & _ & _);
      [by vm_compute..|].
    rewrite Hdf. vm_compute. reflexivity.
Defined.

(** C7 as the spec words it fails: after the page has run, the table that
    was uploaded is no longer what it was; its column is [Int64]. *)
Lemma typing_overwrites_the_upload :
  heap fresh_session !! 1%positive = Some raw_upload
  ∧ session_state (Home.main_content Iso.pandas fresh_session).1 !! "df" = Some 1%positive
  ∧ heap (Home.main_content Iso.pandas fresh_session).1 !! 1%positive = Some typed_upload
  ∧ typed_upload ≠ raw_upload.
Proof. repeat split; try (vm_compute; reflexivity). discriminate. Qed.

(** * Further properties of the code *)

(** ** The row comparison as a difference of multisets *)

Section RowDiff.
Context (pd : PandasLib).
Implicit Types (r : Incremental.row) (bs ns seen : list Incremental.row).




End RowDiff.



(** ** Row counts, swapping the sides, and the order of rows *)








Lemma common_cols_swap BASE NEW :
  Incremental.common_cols NEW BASE = Incremental.common_cols BASE NEW.
Proof.
  unfold Incremental.common_cols. do 2 f_equal. apply (comm_L (∩)).
Qed.

(** X3: swapping baseline and new table swaps the added and the removed
    rows, and leaves "not comparable" as it is. *)
Theorem row_changes_swap (pd : PandasLib) (BASE NEW : DataFrame) :
  Incremental.row_changes pd NEW BASE =
  match Incremental.row_changes pd BASE NEW with
  | Returned (Incremental.RowDiff added removed) =>
      Returned (Incremental.RowDiff removed added)
  | other => other
  end.
Proof.
  destruct (normalize_common_Some pd BASE NEW) as [[bn Hbn] [nn Hnn]].
  pose proof (common_cols_swap BASE NEW) as Hswap.
  destruct (decide (Incremental.common_cols BASE NEW = [])) as [Hnil|Hne].
  - unfold Incremental.row_changes. by rewrite Hswap, Hnil.
  - rewrite (row_changes_unfold pd BASE NEW bn nn Hne Hbn Hnn).
    apply row_changes_unfold; by rewrite Hswap.
Qed.





Lemma lookup_map {A B} (f : A → B) (l : list A) (i : nat) :
  map f l !! i = f <$> l !! i.
Proof. apply (list_lookup_fmap f l i). Qed.


Section RowOrder.
Context (pd : PandasLib).


End RowOrder.






(** ** The typing loop of Home.py *)

Section TypingLoop.
Context (pd : PandasLib).

Lemma rule_datetime_skips col s :
  dtype_of s ≠ dt_object → Home.rule_datetime pd col s = (s, []).
Proof. intros Hne. unfold Home.rule_datetime. by case_decide. Qed.

Lemma rule_bool_skips col s :
  dtype_of s ≠ dt_object → Home.rule_bool pd col s = (s, []).
Proof. intros Hne. unfold Home.rule_bool. by case_decide. Qed.

Lemma rule_numeric_skips col s :
  dtype_of s ≠ dt_object → Home.rule_numeric pd col s = Returned (s, []).
Proof. intros Hne. unfold Home.rule_numeric. by case_decide. Qed.

Lemma convert_column_skips n col s :
  dtype_of s ≠ dt_object → Home.convert_column pd n col s = Returned (s, []).
Proof.
  intros Hne. unfold Home.convert_column.
  by rewrite rule_datetime_skips, rule_bool_skips, rule_numeric_skips,
             rule_category_skips.
Qed.

Lemma length_to_datetime_series l :
  length (Pandas.to_datetime_series pd l) = length l.
Proof. unfold Pandas.to_datetime_series. by rewrite length_map. Qed.

Lemma rule_datetime_once col s s' cs :
  Home.rule_datetime pd col s = (s', cs) →
  converted_once col s s' cs ∧ length (cells s') = length (cells s).
Proof.
  unfold Home.rule_datetime, converted_once.
  case_decide; [|intros; simplify_eq; auto].
  case_match; intros; simplify_eq; [|auto].
  split; [right|simpl; by rewrite length_map, length_to_datetime_series].
  split_and!; [done..|]. by exists "datetime".
Qed.

Lemma rule_bool_once col s s' cs :
  Home.rule_bool pd col s = (s', cs) →
  converted_once col s s' cs ∧ length (cells s') = length (cells s).
Proof.
  unfold Home.rule_bool, converted_once.
  case_decide; [|intros; simplify_eq; auto].
  case_match; intros; simplify_eq; [|auto].
  split; [right|simpl; by rewrite !length_map].
  split_and!; [done..|]. by exists "bool".
Qed.

Lemma length_astype_Int64 num ints :
  astype_Int64 num = Some ints → length ints = length num.
Proof. intros H. apply mapM_Some_1, Forall2_length in H. done. Qed.

Lemma rule_numeric_once col s s' cs :
  Home.rule_numeric pd col s = Returned (s', cs) →
  converted_once col s s' cs ∧ length (cells s') = length (cells s).
Proof.
  unfold Home.rule_numeric, converted_once.
  case_decide; [|intros; simplify_eq; auto].
  case_match; [|intros; simplify_eq; auto].
  case_match.
  - destruct (astype_Int64 _) as [ints|] eqn:Hints; intros; simplify_eq.
    split; [right|].
    + split_and!; [done..|]. by exists "Int64".
    + apply length_astype_Int64 in Hints. simpl. rewrite Hints.
      unfold Home.to_numeric_resilient. by rewrite length_map.
  - intros; simplify_eq. split; [right|].
    + split_and!; [done..|]. by exists "float64".
    + unfold Home.to_numeric_resilient. simpl; by rewrite !length_map.
Qed.

Lemma rule_category_once col n s s' cs :
  Home.rule_category pd col n s = (s', cs) →
  converted_once col s s' cs ∧ cells s' = cells s.
Proof.
  unfold Home.rule_category, converted_once.
  case_decide; [|intros; simplify_eq; auto].
  case_match; intros; simplify_eq; [|auto].
  split; [right|done].
  split_and!; [done..|]. by exists "category".
Qed.

Lemma convert_column_cases n col s s' cs :
  Home.convert_column pd n col s = Returned (s', cs) →
  converted_once col s s' cs ∧ length (cells s') = length (cells s).
Proof.
  unfold Home.convert_column.
  destruct (Home.rule_datetime pd col s) as [s1 c1] eqn:H1.
  destruct (Home.rule_bool pd col s1) as [s2 c2] eqn:H2.
  destruct (Home.rule_numeric pd col s2) as [[s3 c3]|] eqn:H3; [|done].
  destruct (Home.rule_category pd col n s3) as [s4 c4] eqn:H4.
  intros ?; simplify_eq.
  apply rule_datetime_once in H1 as [[[-> ->]|(Ho1 & Hn1 & name1 & -> & Hl1)] Hlen1].
  - apply rule_bool_once in H2 as [[[-> ->]|(Ho2 & Hn2 & name2 & -> & Hl2)] Hlen2].
    + apply rule_numeric_once in H3 as [[[-> ->]|(Ho3 & Hn3 & name3 & -> & Hl3)] Hlen3].
      * apply rule_category_once in H4 as [H4 Hlen4]. split; [done|by rewrite Hlen4].
      * rewrite rule_category_skips in H4 by done. simplify_eq.
        split; [right; eauto 6|done].
    + rewrite rule_numeric_skips in H3 by done. simplify_eq.
      rewrite rule_category_skips in H4 by done. simplify_eq.
      split; [right; eauto 6|done].
  - rewrite rule_bool_skips in H2 by done. simplify_eq.
    rewrite rule_numeric_skips in H3 by done. simplify_eq.
    rewrite rule_category_skips in H4 by done. simplify_eq.
    split; [right; eauto 6|done].
Qed.

Lemma convert_column_raises n col s :
  Home.convert_column pd n col s = Raised →
  ∃ s2, Home.rule_numeric pd col s2 = Raised
        ∧ (s2 = s ∨ dtype_of s2 ≠ dt_object).
Proof.
  unfold Home.convert_column.
  destruct (Home.rule_datetime pd col s) as [s1 c1] eqn:H1.
  destruct (Home.rule_bool pd col s1) as [s2 c2] eqn:H2.
  destruct (Home.rule_numeric pd col s2) as [[s3 c3]|] eqn:H3.
  { by destruct (Home.rule_category pd col n s3). }
  intros _. exists s2. split; [done|].
  apply rule_datetime_once in H1 as [[[-> ->]|(_ & Hn1 & _)] _].
  - apply rule_bool_once in H2 as [[[-> ->]|(_ & Hn2 & _)] _]; auto.
  - rewrite rule_bool_skips in H2 by done. simplify_eq. auto.
Qed.

End TypingLoop.


Lemma replace_column_Forall (P : string * Series → Prop) c s cols :
  Forall P cols → P (c, s) → Forall P (replace_column c s cols).
Proof.
  intros Hall Hs. induction Hall as [|[c0 s0] cols H0 Hcols IH]; simpl.
  - by constructor.
  - case_decide; constructor; auto.
Qed.



Lemma set_column_names t c s s' :
  get_column t c = Some s → column_names (set_column t c s') = column_names t.
Proof.
  intros Hs. apply replace_column_names. unfold get_column in Hs. by rewrite Hs.
Qed.


Section TypingLoopTable.
Context (pd : PandasLib).

Lemma convert_table_shape cols t cs0 :
  column_names (Home.convert_table pd cols t cs0).1 = column_names t
  ∧ nrows (Home.convert_table pd cols t cs0).1 = nrows t
  ∧ (Forall (λ cs, length (cells cs.2) = nrows t) (columns t) →
     Forall (λ cs, length (cells cs.2) = nrows t)
            (columns (Home.convert_table pd cols t cs0).1)).
Proof.
  revert t cs0. induction cols as [|col cols IH]; intros t cs0; simpl; [done|].
  destruct (get_column t col) as [s|] eqn:Hs; [|done].
  destruct (Home.convert_column pd (nrows t) col s) as [[s' cs]|] eqn:Hc; [|done].
  destruct (IH (set_column t col s') (cs0 ++ cs)%list) as (Hn & Hr & Hlen).
  rewrite Hn, Hr. split_and!; [by apply (set_column_names t col s)|done|].
  intros Hall. apply Hlen. simpl. apply replace_column_Forall; [done|]. simpl.
  destruct (convert_column_cases pd _ _ _ _ _ Hc) as [_ ->].
  apply lookup_column_Some in Hs.
  by apply (proj1 (Forall_forall _ _) Hall (col, s)).
Qed.





End TypingLoopTable.

(** X7: the typing loop never changes the shape of the table: whether it
    ends or fails part-way, the table it leaves has the same column names in
    the same order and the same number of rows, and is well formed when the
    table it started from was. *)
Theorem typing_keeps_shape (pd : PandasLib) (t : DataFrame) :
  column_names (Home.auto_type_conversions pd t).1 = column_names t
  ∧ nrows (Home.auto_type_conversions pd t).1 = nrows t
  ∧ (well_formed t → well_formed (Home.auto_type_conversions pd t).1).
Proof.
  unfold Home.auto_type_conversions.
  destruct (convert_table_shape pd (column_names t) t []) as (Hn & Hr & Hlen).
  split_and!; [done..|].
  intros [Hnd Hall]. split; [by rewrite Hn|]. rewrite Hr. by apply Hlen.
Qed.






Section TypingRules.
Context (pd : PandasLib).

Lemma mean_ge_no_hit total num den :
  0 < num → Pandas.mean_ge 0 total num den = false.
Proof.
  intros Hnum. unfold Pandas.mean_ge.
  destruct total as [|k]; [done|]. simpl negb. cbn [andb].
  apply Z.leb_gt. lia.
Qed.

Lemma to_datetime_series_missing k :
  Pandas.to_datetime_series pd (replicate k None) = replicate k None.
Proof.
  unfold Pandas.to_datetime_series.
  generalize (Pandas.first_non_null (replicate k None)). intros f.
  induction k; simpl; [done|]. by f_equal.
Qed.

Lemma missing_column_untyped n col k :
  Home.convert_column pd n col (mkSeries dt_object (replicate k None))
  = Returned (mkSeries dt_object (replicate k None), []).
Proof.
  unfold Home.convert_column.
  assert (Home.rule_datetime pd col (mkSeries dt_object (replicate k None))
          = (mkSeries dt_object (replicate k None), [])) as ->.
  { unfold Home.rule_datetime. simpl. rewrite to_datetime_series_missing.
    replace (Pandas.count Pandas.notna (replicate k (@None Z))) with 0%nat
      by (induction k; simpl; auto).
    by rewrite mean_ge_no_hit. }
  assert (Home.rule_bool pd col (mkSeries dt_object (replicate k None))
          = (mkSeries dt_object (replicate k None), [])) as ->.
  { unfold Home.rule_bool. simpl.
    replace (omap id (replicate k (@None value))) with (@nil value)
      by (induction k; simpl; auto).
    done. }
  assert (Home.rule_numeric pd col (mkSeries dt_object (replicate k None))
          = Returned (mkSeries dt_object (replicate k None), [])) as ->.
  { unfold Home.rule_numeric, Home.numeric_qualifies. simpl.
    replace (Pandas.count id (Home.nonblank_mask pd (mkSeries dt_object (replicate k None))))
      with 0%nat; [done|].
    unfold Home.nonblank_mask. simpl. induction k; simpl; auto. }
  unfold Home.rule_category, Home.looks_categorical. simpl.
  replace (omap id (replicate k (@None value))) with (@nil value)
    by (induction k; simpl; auto).
  simpl. by rewrite orb_true_r.
Qed.

Lemma rule_numeric_Raised col s :
  Home.rule_numeric pd col s = Raised →
  dtype_of s = dt_object
  ∧ Home.numeric_qualifies pd s = true
  ∧ forallb Home.whole (filled pd s) = true
  ∧ astype_Int64 (Home.to_numeric_resilient pd s true) = None.
Proof.
  unfold Home.rule_numeric. fold (filled pd s).
  case_decide; [|done].
  destruct (Home.numeric_qualifies pd s); [|done].
  destruct (forallb Home.whole (filled pd s)); [|done].
  by destruct (astype_Int64 _).
Qed.

End TypingRules.

(** X10: a column without a value is never typed.  When every cell of a
    column is missing (or the table has no row), the turn of the typing
    loop leaves the column as it is and logs nothing, whatever the row
    count. *)
Theorem column_without_values_stays (pd : PandasLib) (n : nat) (col : string) (s : Series) :
  Forall (λ c, c = None) (cells s) →
  Home.convert_column pd n col s = Returned (s, []).
Proof.
  intros Hall. destruct (decide (dtype_of s = dt_object)) as [Hobj|Hne].
  - destruct s as [d l]. simpl in *. subst d.
    assert (l = replicate (length l) None) as ->.
    { symmetry. apply replicate_as_Forall. split; [done|].
      eapply Forall_impl; [exact Hall|]. by intros c ->. }
    apply missing_column_untyped.
  - by apply convert_column_skips.
Qed.

Lemma column_without_values_stays_witness :
  Home.convert_column Iso.pandas 3 "phone" (text_column [None; None; None])
  = Returned (text_column [None; None; None], []).
Proof.
  apply (column_without_values_stays Iso.pandas 3 "phone" (text_column [None; None; None])).
  repeat constructor.
Defined.



(** X12: when the typing loop fails.  A turn of the loop can only fail on a
    text column that qualifies for the number rule and whose non-blank
    cells all read as whole numbers, and then one of the numbers read from
    the column is not a plain decimal: on columns of plain decimals the
    loop never fails. *)
Theorem typing_fails_on_unusual_number (pd : PandasLib) (n : nat) (col : string)
    (s : Series) :
  Home.convert_column pd n col s = Raised →
  dtype_of s = dt_object
  ∧ thresholds_met pd s
  ∧ forallb Home.whole (filled pd s) = true
  ∧ Exists (λ o, ∃ x, o = Some x ∧ Float.plain x = false)
           (Home.to_numeric_resilient pd s false).
Proof.
  intros Hraised.
  destruct (convert_column_raises pd n col s Hraised) as (s2 & Hnum & [->|Hne]);
    [|by rewrite rule_numeric_skips in Hnum].
  apply rule_numeric_Raised in Hnum as (Hobj & Hq & Hwhole & Hcast).
  split_and!; [done|by apply numeric_qualifies_iff|done|].
  destruct (decide (Forall plain_number (Home.to_numeric_resilient pd s false)))
    as [Hplain|Hnot].
  { destruct (astype_Int64_plain pd s Hplain Hwhole) as [ints Hints]. congruence. }
  apply not_Forall_Exists in Hnot; [|apply _].
  eapply Exists_impl; [exact Hnot|].
  intros [x|] Hx; simpl in Hx; [|done].
  exists x. split; [done|]. by destruct (Float.plain x).
Qed.

Lemma typing_fails_on_unusual_number_witness :
  Home.convert_column Iso.pandas 1 "count" huge_count = Raised
  ∧ dtype_of huge_count = dt_object
  ∧ thresholds_met Iso.pandas huge_count.
Proof.
  assert (Home.convert_column Iso.pandas 1 "count" huge_count = Raised) as Hrun
    by (vm_compute; reflexivity).
  split; [exact Hrun|].
  destruct (typing_fails_on_unusual_number Iso.pandas 1 "count" huge_count Hrun)
    as (Hobj & Hmet & _).
  by split.
Defined.

(** ** Schema changes *)

Lemma schema_family_lookup (BASE : DataFrame) (c : string) :
  Incremental.schema_family BASE !! c
  = (λ s, Incremental.dtype_family (dtype_str (dtype_of s))) <$> get_column BASE c.
Proof.
  unfold Incremental.schema_family, get_column.
  induction (columns BASE) as [|[c0 s0] cols IH]; [done|].
  rewrite map_cons, list_to_map_cons. cbn [lookup_column fst snd].
  case_decide; subst.
  - by rewrite lookup_insert_eq.
  - by rewrite lookup_insert_ne.
Qed.

Lemma coerce_column_None (pd : PandasLib) fam s :
  Incremental.coerce_column pd fam s = None → fam = "int".
Proof. unfold Incremental.coerce_column. by repeat case_bool_decide. Qed.

Lemma coerce_column_friendly (pd : PandasLib) (d : dtype) s s' :
  Incremental.coerce_column pd (Incremental.dtype_family (dtype_str d)) s = Some s' →
  Incremental.friendly_dtype (dtype_str (dtype_of s'))
  = Incremental.friendly_dtype (dtype_str d).
Proof.
  intros Hs'.
  assert (∀ fam, Incremental.dtype_family (dtype_str d) = fam →
                 Incremental.coerce_column pd fam s = Some s') as Hfam by (by intros ? <-).
  clear Hs'.
  destruct d;
    match type of Hfam with
    | ∀ fam, ?f = fam → _ =>
        let v := eval vm_compute in f in
        specialize (Hfam v ltac:(vm_compute; reflexivity))
    end;
    unfold Incremental.coerce_column in Hfam;
    repeat (case_bool_decide; [discriminate|]); try case_bool_decide;
    try discriminate;
    try (destruct (astype_Int64 _)); simplify_eq/=; vm_compute; reflexivity.
Qed.

(** X13: after the reconciler has run, a shared column whose baseline type
    is not a date-time type is reported with a type change only when its
    baseline type is of the integer family and the integer cast of the new
    column raised, so that the new column kept the type the reader gave it,
    and that type is not numeric. *)
Theorem reconciled_types_agree (pd : PandasLib) (BASE NEW_raw : DataFrame)
    (c fb fn : string) :
  (c, fb, fn) ∈ Incremental.dtype_changes BASE
                  (Incremental.coerce_to_schema pd NEW_raw (Incremental.schema_family BASE)) →
  Incremental.schema_family BASE !! c ≠ Some "datetime" →
  ∃ sb sn, get_column BASE c = Some sb
           ∧ get_column NEW_raw c = Some sn
           ∧ Incremental.dtype_family (dtype_str (dtype_of sb)) = "int"
           ∧ Incremental.coerce_column pd "int" sn = None
           ∧ fb = "Numeric"
           ∧ fn = Incremental.friendly_dtype (dtype_str (dtype_of sn))
           ∧ fn ≠ "Numeric".
Proof.
  unfold Incremental.dtype_changes. intros Hin _.
  apply list_elem_of_omap in Hin as (c' & _ & Hc').
  destruct (get_column BASE c') as [sb|] eqn:Hsb; [|done]. simpl in Hc'.
  rewrite coerce_to_schema_lookup, schema_family_lookup, Hsb in Hc'. simpl in Hc'.
  destruct (get_column NEW_raw c') as [sn|] eqn:Hsn; [|done]. simpl in Hc'.
  case_decide as Hdiff; [done|]. simplify_eq.
  exists sb, sn.
  destruct (Incremental.coerce_column pd _ sn) as [s'|] eqn:Hco; simpl in Hdiff.
  { by rewrite (coerce_column_friendly pd _ _ _ Hco) in Hdiff. }
  pose proof (coerce_column_None pd _ _ Hco) as Hint. rewrite Hint in Hco.
  assert (Incremental.friendly_dtype (dtype_str (dtype_of sb)) = "Numeric") as Hnum.
  { destruct (dtype_of sb); vm_compute in Hint; try discriminate; reflexivity. }
  rewrite Hnum in Hdiff. rewrite Hnum. by split_and!.
Qed.

Lemma reconciled_types_agree_witness :
  Incremental.dtype_changes stock_base
    (Incremental.coerce_to_schema Iso.pandas stock_new_raw
       (Incremental.schema_family stock_base))
  = [("units", "Numeric", "Text")]
  ∧ ∃ sn, get_column stock_new_raw "units" = Some sn
          ∧ Incremental.coerce_column Iso.pandas "int" sn = None.
Proof.
  assert (Incremental.dtype_changes stock_base
            (Incremental.coerce_to_schema Iso.pandas stock_new_raw
               (Incremental.schema_family stock_base))
          = [("units", "Numeric", "Text")]) as Hrun by (vm_compute; reflexivity).
  split; [exact Hrun|].
  destruct (reconciled_types_agree Iso.pandas stock_base stock_new_raw
              "units" "Numeric" "Text") as (sb & sn & _ & Hsn & _ & Hco & _).
  { rewrite Hrun. left. }
  { rewrite schema_family_lookup. vm_compute. discriminate. }
  exists sn. split; [exact Hsn | exact Hco].
Defined.

Lemma length_sorted_elements (X : gset string) :
  length (merge_sort String.le (elements X)) = size X.
Proof. by rewrite merge_sort_Permutation. Qed.

Lemma size_split (X Y : gset string) : (size (X ∖ Y) + size (X ∩ Y) = size X)%nat.
Proof.
  rewrite <- size_union.
  - f_equal. apply set_eq. intros x.
    rewrite elem_of_union, elem_of_difference, elem_of_intersection.
    destruct (decide (x ∈ Y)); tauto.
  - apply elem_of_disjoint.
    by intros x [_ Hn]%elem_of_difference [_ ?]%elem_of_intersection.
Qed.

Lemma elem_of_added_cols BASE NEW c :
  c ∈ Incremental.added_cols BASE NEW ↔ c ∈ column_names NEW ∧ c ∉ column_names BASE.
Proof.
  unfold Incremental.added_cols.
  rewrite merge_sort_Permutation, elem_of_elements, elem_of_difference.
  by rewrite !elem_of_list_to_set.
Qed.

Lemma elem_of_removed_cols BASE NEW c :
  c ∈ Incremental.removed_cols BASE NEW ↔ c ∈ column_names BASE ∧ c ∉ column_names NEW.
Proof.
  unfold Incremental.removed_cols.
  rewrite merge_sort_Permutation, elem_of_elements, elem_of_difference.
  by rewrite !elem_of_list_to_set.
Qed.

(** X14: the schema comparison accounts for every column exactly once.  A
    column of the new table is listed as added or as shared, never both; a
    column of the baseline as removed or as shared; with no repeated column
    name the counts add up; and each of the three lists is in ascending
    order without repetition. *)
Theorem columns_accounted_for (BASE NEW : DataFrame) :
  (∀ c, c ∈ column_names NEW ↔
        (c ∈ Incremental.added_cols BASE NEW ∧ c ∉ Incremental.common_cols BASE NEW)
        ∨ (c ∈ Incremental.common_cols BASE NEW ∧ c ∉ Incremental.added_cols BASE NEW))
  ∧ (∀ c, c ∈ column_names BASE ↔
        (c ∈ Incremental.removed_cols BASE NEW ∧ c ∉ Incremental.common_cols BASE NEW)
        ∨ (c ∈ Incremental.common_cols BASE NEW ∧ c ∉ Incremental.removed_cols BASE NEW))
  ∧ (NoDup (column_names NEW) →
     (length (Incremental.added_cols BASE NEW) + length (Incremental.common_cols BASE NEW)
      = length (column_names NEW))%nat)
  ∧ (NoDup (column_names BASE) →
     (length (Incremental.removed_cols BASE NEW) + length (Incremental.common_cols BASE NEW)
      = length (column_names BASE))%nat)
  ∧ Forall (λ l, StronglySorted String.le l ∧ NoDup l)
      [Incremental.added_cols BASE NEW; Incremental.removed_cols BASE NEW;
       Incremental.common_cols BASE NEW].
Proof.
  split_and!.
  - intros c. rewrite elem_of_added_cols, elem_of_common_cols.
    destruct (decide (c ∈ column_names BASE)); tauto.
  - intros c. rewrite elem_of_removed_cols, elem_of_common_cols.
    destruct (decide (c ∈ column_names NEW)); tauto.
  - intros Hnd. unfold Incremental.added_cols, Incremental.common_cols.
    rewrite !length_sorted_elements.
    rewrite (comm_L (∩) (list_to_set (column_names BASE))), size_split.
    by apply size_list_to_set.
  - intros Hnd. unfold Incremental.removed_cols, Incremental.common_cols.
    rewrite !length_sorted_elements, size_split.
    by apply size_list_to_set.
  - unfold Incremental.added_cols, Incremental.removed_cols, Incremental.common_cols.
    repeat constructor;
      try (apply StronglySorted_merge_sort; apply _);
      rewrite merge_sort_Permutation; apply NoDup_elements.
Qed.

(** ** Apply and undo *)

Lemma session_table_Some (w : world) key t :
  session_table w key = Some t ↔
  ∃ l, session_state w !! key = Some l ∧ heap w !! l = Some t.
Proof.
  unfold session_table. destruct (session_state w !! key) as [l|]; simpl.
  - split; [eauto|]. by intros (l' & ? & ?); simplify_eq.
  - split; [done|]. by intros (l' & ? & ?).
Qed.

Lemma copy_Some (h : gmap positive DataFrame) l t :
  h !! l = Some t →
  copy h l = Some (<[fresh (dom h) := t]> h, fresh (dom h))
  ∧ h !! fresh (dom h) = None.
Proof.
  intros Hl. unfold copy. rewrite Hl. split; [done|].
  apply not_elem_of_dom, is_fresh.
Qed.

(** X15: replacing the dataset and undoing it.  With a baseline and a new
    table in the session, the replace button makes the new table's value
    the session's dataset and keeps the baseline's value as the backup,
    both as fresh copies: neither is the object the session held before,
    and every table that was in memory is still there unchanged.  Undo then
    gives the session the baseline's value back, clears the backup and
    keeps the new table; a second undo finds nothing to undo. *)
Theorem replace_then_undo (w : world) (base new : DataFrame) :
  session_table w "df" = Some base →
  session_table w "inc_new_df" = Some new →
  ∃ w1, Incremental.replace_with_new w = Some w1
    ∧ session_table w1 "df" = Some new
    ∧ session_table w1 "df_backup" = Some base
    ∧ session_table w1 "inc_new_df" = Some new
    ∧ session_state w1 !! "df" ≠ session_state w !! "inc_new_df"
    ∧ session_state w1 !! "df_backup" ≠ session_state w !! "df"
    ∧ (∀ l t, heap w !! l = Some t → heap w1 !! l = Some t)
    ∧ ∃ w2, Incremental.undo_last_replace w1 = (w2, true)
        ∧ session_table w2 "df" = Some base
        ∧ session_state w2 !! "df_backup" = None
        ∧ session_table w2 "inc_new_df" = Some new
        ∧ heap w2 = heap w1
        ∧ Incremental.undo_last_replace w2 = (w2, false).
Proof.
  intros (lb & Hdf & Hlb)%session_table_Some (ln & Hnew & Hln)%session_table_Some.
  destruct (copy_Some (heap w) lb base Hlb) as [Hc1 Hf1].
  set (f1 := fresh (dom (heap w))) in *.
  set (h1 := <[f1 := base]> (heap w)) in *.
  assert (∀ l t, heap w !! l = Some t → l ≠ f1) as Hne1.
  { intros l t Hl Heq. rewrite Heq in Hl. congruence. }
  assert (h1 !! ln = Some new) as Hln1.
  { unfold h1. rewrite lookup_insert_ne; [done|]. intros Heq. by apply (Hne1 ln new). }
  destruct (copy_Some h1 ln new Hln1) as [Hc2 Hf2].
  set (f2 := fresh (dom h1)) in *.
  set (h2 := <[f2 := new]> h1) in *.
  assert (f2 ≠ f1) as Hf21.
  { intros Heq. rewrite Heq in Hf2. unfold h1 in Hf2.
    by rewrite lookup_insert_eq in Hf2. }
  assert (∀ l t, heap w !! l = Some t → l ≠ f2) as Hne2.
  { intros l t Hl Heq. rewrite <- Heq in Hf2. unfold h1 in Hf2.
    rewrite lookup_insert_ne in Hf2; [congruence|].
    intros Heq'. by apply (Hne1 l t). }
  assert (∀ l t, heap w !! l = Some t → h2 !! l = Some t) as Hkeep.
  { intros l t Hl. unfold h2, h1.
    rewrite !lookup_insert_ne; [done| |].
    - intros Heq. by apply (Hne1 l t).
    - intros Heq. by apply (Hne2 l t). }
  assert (h2 !! f1 = Some base) as Hbackup.
  { unfold h2, h1. by rewrite lookup_insert_ne, lookup_insert_eq. }
  assert (h2 !! f2 = Some new) as Hcurrent.
  { unfold h2. by rewrite lookup_insert_eq. }
  eexists. split.
  { unfold Incremental.replace_with_new. rewrite Hdf, Hnew. simpl.
    rewrite Hc1. simpl. rewrite Hc2. simpl. reflexivity. }
  unfold session_table. simpl.
  rewrite lookup_insert_eq, lookup_insert_ne, lookup_insert_eq by done.
  rewrite !(lookup_insert_ne _ _ "inc_new_df") by done. rewrite Hnew. simpl.
  split_and!; [done|done| | | | |].
  - by apply Hkeep.
  - intros [= Heq]. by apply (Hne2 ln new).
  - rewrite Hdf. intros [= Heq]. by apply (Hne1 lb base).
  - exact Hkeep.
  - eexists. split.
    { unfold Incremental.undo_last_replace. simpl.
      rewrite lookup_insert_ne, lookup_insert_eq by done. reflexivity. }
    simpl. rewrite lookup_delete_ne, lookup_insert_eq by done. simpl.
    rewrite lookup_delete_eq.
    rewrite lookup_delete_ne, !lookup_insert_ne, Hnew by done. simpl.
    split_and!; [done|done|by apply Hkeep|done|].
    unfold Incremental.undo_last_replace. simpl. by rewrite lookup_delete_eq.
Qed.

Lemma replace_then_undo_witness :
  ∃ w1 w2, Incremental.replace_with_new fruit_session = Some w1
           ∧ session_table w1 "df" = Some fruit_new
           ∧ Incremental.undo_last_replace w1 = (w2, true)
           ∧ session_table w2 "df" = Some fruit_base
           ∧ session_state w2 !! "df_backup" = None.
Proof.
  destruct (replace_then_undo fruit_session fruit_base fruit_new)
    as (w1 & Hrep & Hdf & _ & _ & _ & _ & _ & w2 & Hundo & Hback & Hnone & _);
    [vm_compute; reflexivity..|].
  exists w1, w2. split_and!; assumption.
Defined.

(** ** The two numeric normalizers *)

Lemma remove_currency_agree (l : list ascii) :
  Forall (λ a, PyStr.code a ≠ 194) l →
  filter (λ c, Home.currency_class c = false) l
  = filter (λ c, Incremental.currency_class c = false) l.
Proof.
  induction 1 as [|a l Ha _ IH]; [done|].
  assert (Home.currency_class a = Incremental.currency_class a) as Heq.
  { unfold Home.currency_class, Incremental.currency_class.
    by rewrite (proj2 (Z.eqb_neq _ _) Ha). }
  destruct (Incremental.currency_class a) eqn:Hc.
  - rewrite (filter_cons_False (λ c, Home.currency_class c = false))
      by (by rewrite Heq).
    by rewrite (filter_cons_False (λ c, Incremental.currency_class c = false))
      by (by rewrite Hc).
  - rewrite (filter_cons_True (λ c, Home.currency_class c = false))
      by (by rewrite Heq).
    rewrite (filter_cons_True (λ c, Incremental.currency_class c = false))
      by (by rewrite Hc).
    by rewrite IH.
Qed.

Lemma remove_currency_class_agree (t : string) :
  Forall (λ a, PyStr.code a ≠ 194) (PyStr.chars t) →
  PyStr.remove Home.currency_class t = PyStr.remove Incremental.currency_class t.
Proof. intros Hsame. unfold PyStr.remove. by rewrite (remove_currency_agree _ Hsame). Qed.

Lemma replace_blank_Some t t' : Pandas.replace_blank t = Some t' → t' = t.
Proof. unfold Pandas.replace_blank. case_match; congruence. Qed.

Lemma numeric_cells_agree (pd : PandasLib) (c : cell) :
  same_currency_class pd c →
  Home.to_numeric_resilient_cell pd false c = Incremental.to_numeric_resilient_cell pd c
  ∧ Home.to_numeric_resilient_cell pd true c
    = (if PyStr.endswith (stripped pd c) "%"
       then Float.div100 <$> Incremental.to_numeric_resilient_cell pd c
       else Incremental.to_numeric_resilient_cell pd c).
Proof.
  unfold same_currency_class, stripped. intros Hsame.
  unfold Home.to_numeric_resilient_cell, Incremental.to_numeric_resilient_cell.
  cbv zeta.
  destruct (Pandas.replace_blank _) as [t|] eqn:Ht.
  - apply replace_blank_Some in Ht. subst t. cbn [from_option fmap option_fmap option_map].
    rewrite !(remove_currency_class_agree _ Hsame).
    split; [done|]. cbn [andb]. by destruct (PyStr.endswith _ _).
  - simpl. split; [done|]. by destruct (PyStr.endswith _ _).
Qed.



(** ** A re-upload of the baseline's own file *)

Lemma whole_is_floor (q : Q) :
  Float.is_whole (Finite q) = true → (q == inject_Z (Qfloor q))%Q.
Proof.
  unfold Float.is_whole. intros Hden%Pos.eqb_eq.
  assert (q == inject_Z (Qnum (Qred q)))%Q as Hq.
  { rewrite <- (Qred_correct q) at 1. destruct (Qred q) as [m d]. simpl in *. by subst. }
  rewrite Hq at 2. by rewrite Qfloor_Z.
Qed.

Lemma round_half_even_whole (q : Q) :
  Float.is_whole (Finite q) = true → Float.round_half_even q = Qfloor q.
Proof.
  intros Hq%whole_is_floor. unfold Float.round_half_even. cbv zeta.
  assert (Qminus q (inject_Z (Qfloor q)) < 1 # 2)%Q as Hlt.
  { rewrite <- Hq. unfold Qminus. by rewrite Qplus_opp_r. }
  by rewrite (proj1 (Qlt_alt _ _) Hlt).
Qed.

Lemma to_int64_round0 (x : float64) (z : Z) :
  Float.to_int64 x = Some z → Float.to_int64 (Float.round0 x) = Some z.
Proof.
  destruct x as [q| |]; [|done..]. unfold Float.to_int64, Float.round0.
  destruct (Float.is_whole (Finite q)) eqn:Hw; [|done]. cbn [andb].
  destruct (Float.int64_min <=? Qfloor q) eqn:Hlo; [|done].
  destruct (Qfloor q <=? Float.int64_max) eqn:Hhi; [|done].
  cbn [andb]. intros ?; simplify_eq.
  rewrite (round_half_even_whole q Hw).
  apply to_int64_of_Z; by apply Z.leb_le.
Qed.

Lemma astype_Int64_round0 (num : list (option float64)) (ints : list cell) :
  astype_Int64 num = Some ints →
  astype_Int64 (map (fmap Float.round0) num) = Some ints.
Proof.
  unfold astype_Int64. intros H%mapM_Some_1. apply mapM_Some_2.
  induction H as [|o c num ints Ho _ IH]; [constructor|].
  rewrite map_cons. constructor; [|done].
  destruct o as [x|]; [|done]. cbn [fmap option_fmap option_map] in *.
  destruct (Float.to_int64 x) as [z|] eqn:Hx; [|done].
  by rewrite (to_int64_round0 x z Hx).
Qed.

Lemma home_reads_as_page (pd : PandasLib) (l : list cell) :
  Forall (λ c, same_currency_class pd c ∧ PyStr.endswith (stripped pd c) "%" = false) l →
  map (Home.to_numeric_resilient_cell pd true) l
  = map (Incremental.to_numeric_resilient_cell pd) l.
Proof.
  induction 1 as [|c l [Hc Hpct] _ IH]; [done|].
  destruct (numeric_cells_agree pd c Hc) as [_ H2].
  simpl. by rewrite H2, Hpct, IH.
Qed.

Lemma bool_cells_agree (pd : PandasLib) (c : cell) :
  (v ← c; b ← BOOL_MAP (Home.bool_token pd v); Some (VBool b))
  = VBool <$> BOOL_MAP (PyStr.lower (PyStr.strip (Pandas.astype_str pd c))).
Proof.
  destruct c as [v|]; simpl.
  - unfold Home.bool_token. by destruct (BOOL_MAP _).
  - vm_compute. reflexivity.
Qed.

(** X17: the reconciler repeats the typing loop.  When the typing loop of
    [Home.py] gave a text column the type date-time or boolean, the
    reconciler's conversion, asked for the family of that type and given
    the same text column, returns the very same column, cells and type.
    The same holds for the types [Int64] and [float64] when the numbers read
    are plain decimals and no cell ends with a percent sign or holds the
    character that only [Home.py] removes. *)
Theorem coercion_repeats_typing (pd : PandasLib) (n : nat) (col : string)
    (s s' : Series) (cs : list Home.conversion) :
  dtype_of s = dt_object →
  Home.convert_column pd n col s = Returned (s', cs) →
  dtype_of s' = dt_datetime64 ∨ dtype_of s' = dt_boolean
  ∨ ((dtype_of s' = dt_Int64 ∨ dtype_of s' = dt_float64)
     ∧ Forall (λ c, same_currency_class pd c
                    ∧ PyStr.endswith (stripped pd c) "%" = false) (cells s)
     ∧ Forall plain_number (Home.to_numeric_resilient pd s false)) →
  Incremental.coerce_column pd (Incremental.dtype_family (dtype_str (dtype_of s'))) s
  = Some s'.
Proof.
  unfold Home.convert_column. intros Hobj Hconv Htype.
  destruct (Home.rule_datetime pd col s) as [s1 c1] eqn:H1.
  destruct (Home.rule_bool pd col s1) as [s2 c2] eqn:H2.
  destruct (Home.rule_numeric pd col s2) as [[s3 c3]|] eqn:H3; [|done].
  destruct (Home.rule_category pd col n s3) as [s4 c4] eqn:H4.
  simplify_eq.
  unfold Home.rule_datetime in H1. rewrite decide_True in H1 by done.
  destruct (Pandas.mean_ge _ _ 6 10) in H1; simplify_eq.
  { rewrite rule_bool_skips in H2 by done. simplify_eq.
    rewrite rule_numeric_skips in H3 by done. simplify_eq.
    rewrite rule_category_skips in H4 by done. simplify_eq.
    cbn [dtype_of].
    change (Incremental.dtype_family (dtype_str dt_datetime64)) with "datetime".
    unfold Incremental.coerce_column. by rewrite bool_decide_eq_true_2 by done. }
  unfold Home.rule_bool in H2. rewrite decide_True in H2 by done.
  destruct (negb _ && _) in H2; simplify_eq.
  { rewrite rule_numeric_skips in H3 by done. simplify_eq.
    rewrite rule_category_skips in H4 by done. simplify_eq.
    cbn [dtype_of].
    change (Incremental.dtype_family (dtype_str dt_boolean)) with "boolean".
    unfold Incremental.coerce_column.
    rewrite bool_decide_eq_false_2, bool_decide_eq_true_2 by done.
    do 2 f_equal. apply map_ext. intros c. symmetry. apply bool_cells_agree. }
  unfold Home.rule_numeric in H3. rewrite decide_True in H3 by done.
  destruct (Home.numeric_qualifies pd _) in H3.
  - destruct (forallb Home.whole _) in H3.
    + destruct (astype_Int64 (Home.to_numeric_resilient pd _ true)) as [ints|] eqn:Hints;
        simplify_eq.
      rewrite rule_category_skips in H4 by done. simplify_eq.
      cbn [dtype_of] in *.
      destruct Htype as [?|[?|(_ & Hcells & _)]]; [done..|].
      change (Incremental.dtype_family (dtype_str dt_Int64)) with "int".
      unfold Incremental.coerce_column.
      rewrite !bool_decide_eq_false_2, bool_decide_eq_true_2 by done.
      unfold Incremental.to_numeric_resilient.
      rewrite <- (home_reads_as_page pd _ Hcells).
      unfold Home.to_numeric_resilient in Hints.
      by rewrite (astype_Int64_round0 _ _ Hints).
    + simplify_eq. rewrite rule_category_skips in H4 by done. simplify_eq.
      cbn [dtype_of] in *.
      destruct Htype as [?|[?|(_ & Hcells & _)]]; [done..|].
      change (Incremental.dtype_family (dtype_str dt_float64)) with "float".
      unfold Incremental.coerce_column.
      rewrite !bool_decide_eq_false_2, bool_decide_eq_true_2 by done.
      unfold Incremental.to_numeric_resilient, Home.to_numeric_resilient.
      by rewrite <- (home_reads_as_page pd _ Hcells).
  - simplify_eq. unfold Home.rule_category in H4. rewrite decide_True in H4 by done.
    destruct (Home.looks_categorical pd _ n); simplify_eq; cbn [dtype_of] in *.
    + by destruct Htype as [?|[?|[[?|?] _]]].
    + rewrite Hobj in Htype. by destruct Htype as [?|[?|[[?|?] _]]].
Qed.

Lemma coercion_repeats_typing_witness :
  ∃ s', Home.convert_column Iso.pandas 10 "amount" ten_amounts
        = Returned (s', [("amount", "Int64")])
        ∧ Incremental.coerce_column Iso.pandas "int" ten_amounts = Some s'.
Proof.
  destruct (Home.convert_column Iso.pandas 10 "amount" ten_amounts) as [[s' cs]|] eqn:Hrun;
    [|vm_compute in Hrun; discriminate].
  assert (cs = [("amount", "Int64")] ∧ dtype_of s' = dt_Int64) as [-> Hty].
  { vm_compute in Hrun. by simplify_eq. }
  exists s'. split; [done|].
  pose proof (coercion_repeats_typing Iso.pandas 10 "amount" ten_amounts s' _
                eq_refl Hrun) as Hsame.
  rewrite Hty in Hsame. apply Hsame.
  right; right. split; [by left|].
  split; apply (bool_decide_unpack _); vm_compute; exact I.
Defined.

(** ** Missing values under typing *)

Lemma Forall2_map_r {A B} (R : A → B → Prop) (f : A → B) (l : list A) :
  (∀ x, R x (f x)) → Forall2 R l (map f l).
Proof. intros Hf. induction l; simpl; constructor; auto. Qed.

Lemma stays_missing_count (l l' : list cell) :
  Forall2 stays_missing l l' →
  (Pandas.count (λ c, negb (Pandas.notna c)) l
   ≤ Pandas.count (λ c, negb (Pandas.notna c)) l')%nat.
Proof.
  unfold Pandas.count. induction 1 as [|c c' l l' Hc _ IH]; simpl; [done|].
  destruct c as [v|]; simpl.
  - destruct c'; simpl; lia.
  - rewrite (Hc eq_refl). simpl. lia.
Qed.

Lemma home_numeric_missing (pd : PandasLib) :
  Home.to_numeric_resilient_cell pd true None = None.
Proof. vm_compute. reflexivity. Qed.

Lemma astype_Int64_missing (pd : PandasLib) (l ints : list cell) :
  astype_Int64 (map (Home.to_numeric_resilient_cell pd true) l) = Some ints →
  Forall2 stays_missing l ints.
Proof.
  revert ints. induction l as [|x l IH]; intros ints Hints.
  - apply mapM_Some_1 in Hints. inversion Hints. constructor.
  - apply mapM_Some_1 in Hints. rewrite map_cons in Hints.
    inversion Hints as [|? c ? ints' Ho Hrest]; subst. constructor.
    + intros ->. rewrite home_numeric_missing in Ho. by simplify_eq.
    + apply IH. by apply mapM_Some_2.
Qed.

Lemma convert_column_missing (pd : PandasLib) n col s s' cs :
  Home.convert_column pd n col s = Returned (s', cs) →
  Forall2 stays_missing (cells s) (cells s').
Proof.
  assert (∀ l : list cell, Forall2 stays_missing l l) as Hrefl.
  { intros l. induction l; constructor; [by intros ?|done]. }
  unfold Home.convert_column.
  destruct (Home.rule_datetime pd col s) as [s1 c1] eqn:H1.
  destruct (Home.rule_bool pd col s1) as [s2 c2] eqn:H2.
  destruct (Home.rule_numeric pd col s2) as [[s3 c3]|] eqn:H3; [|done].
  destruct (Home.rule_category pd col n s3) as [s4 c4] eqn:H4.
  intros ?; simplify_eq.
  assert (Forall2 stays_missing (cells s) (cells s1)) as HA.
  { unfold Home.rule_datetime in H1. repeat case_match; simplify_eq; [|done..].
    simpl. unfold Pandas.to_datetime_series. rewrite map_map.
    apply Forall2_map_r. by intros c ->. }
  assert (Forall2 stays_missing (cells s1) (cells s2)) as HB.
  { unfold Home.rule_bool in H2. repeat case_match; simplify_eq; [|done..].
    simpl. apply Forall2_map_r. by intros c ->. }
  assert (Forall2 stays_missing (cells s2) (cells s3)) as HC.
  { unfold Home.rule_numeric in H3. case_decide; [|by simplify_eq].
    destruct (Home.numeric_qualifies pd s2); [|by simplify_eq].
    destruct (forallb _ _).
    - destruct (astype_Int64 _) as [ints|] eqn:Hints; simplify_eq. simpl.
      by apply (astype_Int64_missing pd).
    - simplify_eq. simpl. unfold Home.to_numeric_resilient. rewrite map_map.
      apply Forall2_map_r. intros c ->. by rewrite home_numeric_missing. }
  assert (cells s' = cells s3) as HD.
  { by destruct (rule_category_once pd col n _ _ _ H4). }
  rewrite HD. clear -HA HB HC.
  revert HA HB HC. generalize (cells s) (cells s1) (cells s2) (cells s3).
  intros l0 l1 l2 l3 HA. revert l2 l3.
  induction HA as [|a b l0 l1 Hab _ IH]; intros l2 l3 HB HC.
  - inversion HB; simplify_eq. inversion HC; simplify_eq. constructor.
  - inversion HB as [|? c ? l2' Hbc HB']; simplify_eq.
    inversion HC as [|? d ? l3' Hcd HC']; simplify_eq.
    constructor; [|by eapply IH]. intros Ha. by apply Hcd, Hbc, Hab.
Qed.

(** X18: typing never fills a missing cell.  When a turn of the typing loop
    returns, every cell that was missing is still missing, so the count of
    missing values that the profiling summary shows for the column is at
    least what it was; cells that no rule could read add to it. *)
Theorem typing_keeps_missing (pd : PandasLib) (n : nat) (col : string) (s s' : Series)
    (cs : list Home.conversion) :
  Home.convert_column pd n col s = Returned (s', cs) →
  Forall2 stays_missing (cells s) (cells s')
  ∧ (missing_values s ≤ missing_values s')%nat.
Proof.
  intros Hconv. pose proof (convert_column_missing pd n col s s' cs Hconv) as Hkeep.
  split; [done|]. by apply stays_missing_count.
Qed.

Lemma typing_keeps_missing_witness :
  ∃ s', Home.convert_column Iso.pandas 10 "reading" nine_numbers_one_word
        = Returned (s', [("reading", "float64")])
        ∧ missing_values nine_numbers_one_word = 0%nat
        ∧ missing_values s' = 1%nat
        ∧ (missing_values nine_numbers_one_word ≤ missing_values s')%nat.
Proof.
  destruct (Home.convert_column Iso.pandas 10 "reading" nine_numbers_one_word)
    as [[s' cs]|] eqn:Hrun; [|vm_compute in Hrun; discriminate].
  destruct (typing_keeps_missing Iso.pandas 10 "reading" nine_numbers_one_word s' cs Hrun)
    as [_ Hle].
  vm_compute in Hrun. simplify_eq.
  eexists. split; [reflexivity|]. split; [reflexivity|]. split; [reflexivity|exact Hle].
Defined.

(** ** A table against itself *)



(** ** The readers' cleanup *)

Lemma all_missing_false (s : Series) :
  Upload.all_missing s = false ↔ ∃ v, Some v ∈ cells s.
Proof.
  unfold Upload.all_missing. induction (cells s) as [|c l IH]; simpl.
  - split; [done|]. by intros (v & ?%elem_of_nil).
  - destruct c as [v|]; simpl.
    + split; [|done]. intros _. exists v. left.
    + rewrite IH. split.
      * intros (v & Hv). exists v. by right.
      * intros (v & [?|Hv]%elem_of_cons); [done|eauto].
Qed.

Lemma elem_of_drop_junk_columns (df : DataFrame) (cs : string * Series) :
  cs ∈ columns (Upload.drop_junk_columns df) ↔
  cs ∈ columns df ∧ Upload.is_unnamed cs.1 = false ∧ Upload.all_missing cs.2 = false.
Proof.
  unfold Upload.drop_junk_columns. simpl.
  rewrite !list_elem_of_filter. tauto.
Qed.

Lemma filter_all {A} (P : A → Prop) `{∀ x, Decision (P x)} (l : list A) :
  Forall P l → filter P l = l.
Proof.
  induction 1 as [|x l Hx _ IH]; [done|]. by rewrite filter_cons_True, IH.
Qed.

(** X20: the column cleanup of the readers.  It drops exactly the columns
    whose header is [Unnamed] or [Unnamed: <digits>] (in any case) and the
    columns without a value; the columns it keeps are untouched and in
    order; [dropped_cols] is the number of columns dropped; and cleaning a
    cleaned frame drops nothing. *)
Theorem junk_columns_dropped (df : DataFrame) :
  nrows (Upload.read_csv_safely df).1 = nrows df
  ∧ sublist (columns (Upload.read_csv_safely df).1) (columns df)
  ∧ (∀ cs, cs ∈ columns (Upload.read_csv_safely df).1 ↔
           cs ∈ columns df ∧ Upload.is_unnamed cs.1 = false ∧ ∃ v, Some v ∈ cells cs.2)
  ∧ ((Upload.read_csv_safely df).2 + length (columns (Upload.read_csv_safely df).1)
     = length (columns df))%nat
  ∧ Upload.read_csv_safely (Upload.read_csv_safely df).1 = ((Upload.read_csv_safely df).1, 0%nat).
Proof.
  unfold Upload.read_csv_safely. cbv zeta. cbn [fst snd].
  assert (sublist (columns (Upload.drop_junk_columns df)) (columns df)) as Hsub.
  { unfold Upload.drop_junk_columns. simpl.
    etrans; apply sublist_filter. }
  split_and!.
  - done.
  - done.
  - intros cs. by rewrite elem_of_drop_junk_columns, all_missing_false.
  - apply sublist_length in Hsub. lia.
  - assert (Upload.drop_junk_columns (Upload.drop_junk_columns df)
            = Upload.drop_junk_columns df) as ->; [|by rewrite Nat.sub_diag].
    unfold Upload.drop_junk_columns at 1.
    rewrite (filter_all (λ cs, Upload.is_unnamed cs.1 = false)).
    + rewrite (filter_all (λ cs, Upload.all_missing cs.2 = false)); [done|].
      apply Forall_forall. by intros cs (_ & _ & ?)%elem_of_drop_junk_columns.
    + apply Forall_forall. by intros cs (_ & ? & _)%elem_of_drop_junk_columns.
Qed.

Lemma names_of_map (F : string * Series → string * Series) (l : list (string * Series)) :
  (∀ cs, (F cs).1 = cs.1) → (map F l).*1 = l.*1.
Proof.
  intros HF. induction l as [|cs l IH]; [done|].
  rewrite map_cons, !fmap_cons, HF. by f_equal.
Qed.

(** X21: the row cleanup of the page's reader.  The frame it returns has
    the columns that the column cleanup keeps, no more rows than the parsed
    frame, no row without a value and no cell of white space only: such
    cells have become missing. *)
Theorem page_reader_rows (df : DataFrame) :
  column_names (Upload.read_csv_safely_bytes df)
  = column_names (Upload.read_csv_safely df).1
  ∧ (nrows (Upload.read_csv_safely_bytes df) ≤ nrows df)%nat
  ∧ (∀ i, (i < nrows (Upload.read_csv_safely_bytes df))%nat →
          Upload.row_all_missing (columns (Upload.read_csv_safely_bytes df)) i = false)
  ∧ Forall (λ cs, length (cells cs.2) = nrows (Upload.read_csv_safely_bytes df)
                  ∧ Forall (λ c, ∀ t, c = Some (VStr t) → ¬ whitespace_only t)
                           (cells cs.2))
           (columns (Upload.read_csv_safely_bytes df)).
Proof.
  unfold Upload.read_csv_safely_bytes, Upload.read_csv_safely. cbv zeta. cbn [fst].
  set (clean := Upload.replace_blank_cells (Upload.drop_junk_columns df)).
  set (keep := filter (λ i, Upload.row_all_missing (columns clean) i = false)
                      (seq 0 (nrows clean))).
  assert (nrows (Upload.dropna_rows clean) = length keep) as Hn by done.
  assert (columns (Upload.dropna_rows clean)
          = map (λ cs, (cs.1, mkSeries (dtype_of cs.2)
                                (map (λ i, mjoin (cells cs.2 !! i)) keep)))
                (columns clean)) as Hcols by done.
  split_and!.
  - unfold column_names. rewrite Hcols, names_of_map by done.
    unfold clean, Upload.replace_blank_cells. cbn [columns].
    by rewrite names_of_map.
  - rewrite Hn. unfold keep.
    etrans; [apply length_filter|]. by rewrite length_seq.
  - rewrite Hn, Hcols. intros j Hj.
    destruct (lookup_lt_is_Some_2 keep j Hj) as [i Hi].
    assert (Upload.row_all_missing (columns clean) i = false) as Hrow.
    { assert (i ∈ keep) as Hin by (apply list_elem_of_lookup; eauto).
      unfold keep in Hin. by apply list_elem_of_filter in Hin as [? _]. }
    rewrite <- Hrow. unfold Upload.row_all_missing.
    generalize (columns clean). intros l.
    induction l as [|cs l IH]; [done|]. simpl. rewrite IH. f_equal.
    by rewrite lookup_map, Hi.
  - rewrite Hn, Hcols. apply Forall_forall. intros cs Hcs.
    change (map ?f (columns clean)) with (f <$> columns clean) in Hcs.
    apply list_elem_of_fmap in Hcs as (cs0 & -> & Hcs0). simpl.
    split; [by rewrite length_map|].
    apply Forall_forall. intros c Hc t -> Hblank.
    change (map ?f keep) with (f <$> keep) in Hc.
    apply list_elem_of_fmap in Hc as (i & Hc & _).
    destruct (cells cs0.2 !! i) as [c|] eqn:Hi; [|done]. simpl in Hc. subst c.
    unfold clean, Upload.replace_blank_cells in Hcs0. simpl in Hcs0.
    change (map ?f ?l) with (f <$> l) in Hcs0.
    apply list_elem_of_fmap in Hcs0 as (cs1 & -> & _). simpl in Hi.
    rewrite lookup_map in Hi.
    destruct (cells cs1.2 !! i) as [c|]; [|done]. simpl in Hi.
    unfold Upload.blank_to_missing in Hi.
    destruct c as [[t'| | | |]|]; try done.
    destruct (forallb PyStr.isspace (PyStr.chars t')) eqn:Hsp; [done|].
    simplify_eq. unfold whitespace_only in Hblank. congruence.
Qed.

Example exported_cleaned :
  Upload.read_csv_safely exported
  = (mkDataFrame 3
       [("name", text_column [Some "Ann"; Some "Bob"; None]);
        ("note", text_column [Some (String "009" ""); Some "ok"; Some (String "009" "")])],
     2%nat)
  ∧ Upload.read_csv_safely_bytes exported
    = mkDataFrame 2 [("name", text_column [Some "Ann"; Some "Bob"]);
                     ("note", text_column [None; Some "ok"])].
Proof. split; vm_compute; reflexivity. Qed.
